(** * django-override-field: composite fields spanning several columns

    A shallow embedding of [override_field/fields.py].  Python objects that
    are mutated in place (model instances, the generated view classes) live
    in an explicit [world]; every method is a computation in a state and
    exception monad over that world, so that a raised exception still shows
    the writes performed before it. *)

From Stdlib Require Import ZArith.
From stdpp Require Import base strings list gmap.

Set Warnings "-register-all".

(** ** Python values and objects *)

(** Objects with identity (model instances and whatever else a column may
    refer to) are heap objects, named by their location. *)
Definition loc := nat.

(** Every call of [_generate_instance_class] builds a new class object. *)
Definition class_id := nat.

(** The host ORM's column types, as far as this module constructs them:
    [BooleanField(default=...)] and the caller's [target_field(...)] with
    its [null] and [blank] keyword arguments. *)
Inductive field_spec :=
| BooleanField (default : bool)
| TargetField (target : string) (null blank : bool).

(** A [MultiColumnField] after [contribute_to_class] has run.  [fields] is
    a Python dict, kept as the list of its items in insertion order. *)
Record MultiColumnField := {
  fields : list (string * field_spec);
  name : string;
  key : string;
  names : list string;
  field_names : gmap string string;
  instance_class : class_id;
}.

(** An object of a generated [MultiColumnFieldInstance] class.
    [class_owner] is [owner_field], the variable its class closes over.  The
    other components are the object's own attributes, absent until
    [__init__] assigns them: [content_type] (always [None]), [instance],
    [field] and [names]. *)
Record MultiColumnFieldInstance := {
  class_owner : MultiColumnField;
  own_content_type : bool;
  own_instance : option loc;
  own_field : option MultiColumnField;
  own_names : option (list string);
}.

(** The class of a view: the one generated for its owner. *)
Definition view_class (self : MultiColumnFieldInstance) : class_id :=
  instance_class (class_owner self).

(** Python values.  [PyDict] is a dict taken by value, as for the mapping
    handed to [__set__] and the result of [to_dict]; a value that several
    columns can share and that can be changed in place is a [PyRef], a
    reference to a heap object; [PyField] is a [MultiColumnField] object
    and [PyKeys] the result of [fields.keys()]. *)
Inductive pyobj :=
| PyNone
| PyBool (b : bool)
| PyInt (z : Z)
| PyStr (s : string)
| PyDict (d : gmap string pyobj)
| PyView (v : MultiColumnFieldInstance)
| PyRef (o : loc)
| PyField (f : MultiColumnField)
| PyKeys (l : list string).

(** Python truth value, as tested by [not x]. *)
Definition truthy (x : pyobj) : bool :=
  match x with
  | PyNone => false
  | PyBool b => b
  | PyInt z => negb (z =? 0)%Z
  | PyStr s => negb (String.eqb s "")
  | PyDict d => negb (bool_decide (d = ∅))
  | PyView _ => true
  | PyRef _ => true
  | PyField _ => true
  | PyKeys l => match l with [] => false | _ :: _ => true end
  end.

Inductive exn :=
| AttributeError (attr : string)
| KeyError (k : string)
| TypeError
| NameError (name0 : string)
| RecursionError.

(** A property object on a generated class, represented by the attribute
    name it was made for (a string in every ordinary run). *)
Abbreviation property := pyobj (only parsing).

(** [objs]: the attribute dictionary of every heap object.
    [classes]: the properties installed on every generated view class.
    [db]: the rows the host ORM has persisted. *)
Record world := {
  objs : gmap loc (gmap string pyobj);
  classes : gmap class_id (gmap string property);
  db : gmap loc (gmap string pyobj);
}.

(** ** State and exception monad *)

Inductive outcome (A : Type) :=
| Ok (a : A)
| Raise (e : exn).
Arguments Ok {A} a.
Arguments Raise {A} e.

Definition M (A : Type) : Type := world → world * outcome A.

Definition ret {A} (a : A) : M A := λ w, (w, Ok a).
Definition raise {A} (e : exn) : M A := λ w, (w, Raise e).
Definition bind {A B} (c : M A) (k : A → M B) : M B :=
  λ w, match c w with
       | (w', Ok a) => k a w'
       | (w', Raise e) => (w', Raise e)
       end.

Notation "x <~ c ;; k" := (bind c (λ x, k))
  (at level 100, c at next level, right associativity,
   format "'[v' x  <~  c  ;;  '/' k ']'").

(** [for x in l: s = body(s, x)] with the loop-carried local [s]. *)
Fixpoint for_fold {A S} (l : list A) (s : S) (body : S → A → M S) : M S :=
  match l with
  | [] => ret s
  | x :: l' => s' <~ body s x ;; for_fold l' s' body
  end.

(** [for x in l: body(x)] *)
Definition for_each {A} (l : list A) (body : A → M unit) : M unit :=
  for_fold l tt (λ _ x, body x).

(** ** Python primitives *)

Definition attrs_of (w : world) (o : loc) : gmap string pyobj :=
  default ∅ (objs w !! o).

(** [getattr(o, attr)] *)
Definition getattr (o : loc) (attr : string) : M pyobj :=
  λ w, match attrs_of w o !! attr with
       | Some v => (w, Ok v)
       | None => (w, Raise (AttributeError attr))
       end.

(** [getattr(o, attr, dflt)] *)
Definition getattr_default (o : loc) (attr : string) (dflt : pyobj) : M pyobj :=
  λ w, (w, Ok (default dflt (attrs_of w o !! attr))).

Definition set_attr (o : loc) (attr : string) (v : pyobj) (w : world) : world :=
  {| objs := <[o := <[attr := v]> (attrs_of w o)]> (objs w);
     classes := classes w;
     db := db w |}.

(** [setattr(o, attr, v)] *)
Definition setattr (o : loc) (attr : string) (v : pyobj) : M unit :=
  λ w, (set_attr o attr v w, Ok tt).

(** [d[k]] *)
Definition dict_getitem {V} (d : gmap string V) (k : string) : M V :=
  match d !! k with
  | Some v => ret v
  | None => raise (KeyError k)
  end.

(** An attribute name handed to [getattr] or [setattr] must be a string. *)
Definition attr_name (a : pyobj) : M string :=
  match a with
  | PyStr s => ret s
  | _ => raise TypeError
  end.

(** [x[k]] for any value [x]: only a dict can be subscripted by a name. *)
Definition py_getitem (x : pyobj) (k : string) : M pyobj :=
  match x with
  | PyDict d => dict_getitem d k
  | _ => raise TypeError
  end.

(** The items [for name in x] runs over: the keys of a [keys()] result or
    of a dict (a dict by value has them in the order of the map), the
    characters of a string; nothing else of this model is iterable. *)
Definition py_iter (x : pyobj) : M (list string) :=
  match x with
  | PyKeys l => ret l
  | PyDict d => ret (map_to_list d).*1
  | PyStr s => ret ((λ c, String c EmptyString) <$> String.list_ascii_of_string s)
  | _ => raise TypeError
  end.

Definition class_props (w : world) (c : class_id) : gmap string property :=
  default ∅ (classes w !! c).

Definition set_class_attr (c : class_id) (attr : string) (p : property)
    (w : world) : world :=
  {| objs := objs w;
     classes := <[c := <[attr := p]> (class_props w c)]> (classes w);
     db := db w |}.

(** [setattr(C, attr, prop)] on a generated class. *)
Definition class_setattr (c : class_id) (attr : string) (p : property) : M unit :=
  λ w, (set_class_attr c attr p w, Ok tt).

(** ** Attributes of a view object *)

(** The property the class of [self] has under [attr], if any.  Line 23 of
    fields.py is the only place that sets an attribute on a generated
    class, and the names it uses are those of [owner_field] (a field with
    both a sub-field called [names] and one called [field] apart, where the
    loop of [__init__] can be led to other names; no statement below
    rests on the properties of such a field).  An entry of the table under any other name is not
    an attribute of the class and is not looked at. *)
Definition class_property (w : world) (self : MultiColumnFieldInstance)
    (attr : string) : option property :=
  if decide (attr ∈ names (class_owner self))
  then class_props w (view_class self) !! attr
  else None.

(** The attributes [__init__] gives the object itself. *)
Definition view_own (self : MultiColumnFieldInstance) (attr : string) : option pyobj :=
  if decide (attr = "content_type")
  then (if own_content_type self then Some PyNone else None)
  else if decide (attr = "instance") then PyRef <$> own_instance self
  else if decide (attr = "field") then PyField <$> own_field self
  else if decide (attr = "names") then PyKeys <$> own_names self
  else None.

(** [self.instance].  A property of that name on the class comes first, and
    its getter asks for [self.instance] again, without end. *)
Definition view_instance (self : MultiColumnFieldInstance) : M loc :=
  λ w, match class_property w self "instance" with
       | Some _ => (w, Raise RecursionError)
       | None => match own_instance self with
                 | Some i => (w, Ok i)
                 | None => (w, Raise (AttributeError "instance"))
                 end
       end.

(** Modelled from the spec: [_make_property] is called by
    [MultiColumnFieldInstance.__init__] but fields.py does not define it.
    The spec has each sub-field exposed as a readable and writable property
    that proxies to the corresponding physical column on the owning
    instance: the property is bound to the column name, reading it is
    [getattr(self.instance, field_name)] and writing it is
    [setattr(self.instance, field_name, value)], for the view [self] it is
    accessed on. *)
Definition _make_property (self : MultiColumnFieldInstance)
    (field_name : pyobj) : property := field_name.

Definition property_get (p : property) (self : MultiColumnFieldInstance) : M pyobj :=
  i <~ view_instance self ;;
  column <~ attr_name p ;;
  getattr i column.

Definition property_set (p : property) (self : MultiColumnFieldInstance)
    (value : pyobj) : M unit :=
  i <~ view_instance self ;;
  column <~ attr_name p ;;
  setattr i column value.

(** [getattr(view, attr)], also written [view.attr]: a property of the
    class comes before the object's own attribute.  Methods are not values
    of this model and are not found here. *)
Definition view_getattr (self : MultiColumnFieldInstance) (attr : string) : M pyobj :=
  λ w, match class_property w self attr with
       | Some p => property_get p self w
       | None => match view_own self attr with
                 | Some v => (w, Ok v)
                 | None => (w, Raise (AttributeError attr))
                 end
       end.

(** [getattr(view, attr, dflt)]: an [AttributeError] raised during the
    lookup, also from inside a property getter, yields the default. *)
Definition view_getattr_default (self : MultiColumnFieldInstance) (attr : string)
    (dflt : pyobj) : M pyobj :=
  λ w, match view_getattr self attr w with
       | (w', Raise (AttributeError _)) => (w', Ok dflt)
       | r => r
       end.

(** [setattr(view, attr, value)] where the result is not kept: through the
    class property if there is one; otherwise a plain attribute of the
    transient view object, which no other object sees. *)
Definition view_setattr (self : MultiColumnFieldInstance) (attr : string)
    (value : pyobj) : M unit :=
  λ w, match class_property w self attr with
       | Some p => property_set p self value w
       | None => (w, Ok tt)
       end.

(** [self.attr = value] inside [__init__]: through the class property if
    there is one, and then the object itself is left as it was; otherwise
    the object becomes [assigned]. *)
Definition view_store (self : MultiColumnFieldInstance) (attr : string)
    (value : pyobj) (assigned : MultiColumnFieldInstance)
    : M MultiColumnFieldInstance :=
  λ w, match class_property w self attr with
       | Some p => (_ <~ property_set p self value ;; ret self) w
       | None => (w, Ok assigned)
       end.

(** [x.field_names] for any value [x]. *)
Definition field_names_of (x : pyobj) : M pyobj :=
  match x with
  | PyField g => ret (PyDict (PyStr <$> field_names g))
  | PyRef o => getattr o "field_names"
  | PyView u => view_getattr u "field_names"
  | _ => raise (AttributeError "field_names")
  end.

(** ** MultiColumnFieldInstance *)

(** The object after [self.content_type = None], [self.instance = i],
    [self.field = f] and [self.names = l], when no property stands in the
    way. *)
Definition with_content_type (self : MultiColumnFieldInstance) : MultiColumnFieldInstance :=
  {| class_owner := class_owner self; own_content_type := true;
     own_instance := own_instance self; own_field := own_field self;
     own_names := own_names self |}.

Definition with_instance (self : MultiColumnFieldInstance) (i : loc) : MultiColumnFieldInstance :=
  {| class_owner := class_owner self; own_content_type := own_content_type self;
     own_instance := Some i; own_field := own_field self;
     own_names := own_names self |}.

Definition with_field (self : MultiColumnFieldInstance) (f : MultiColumnField)
    : MultiColumnFieldInstance :=
  {| class_owner := class_owner self; own_content_type := own_content_type self;
     own_instance := own_instance self; own_field := Some f;
     own_names := own_names self |}.

Definition with_names (self : MultiColumnFieldInstance) (l : list string)
    : MultiColumnFieldInstance :=
  {| class_owner := class_owner self; own_content_type := own_content_type self;
     own_instance := own_instance self; own_field := own_field self;
     own_names := Some l |}.

(** A new object of the class generated for [owner_field], before
    [__init__] has run. *)
Definition new_view (owner_field : MultiColumnField) : MultiColumnFieldInstance :=
  {| class_owner := owner_field; own_content_type := false;
     own_instance := None; own_field := None; own_names := None |}.

(** Lines 16 to 23: the body of [MultiColumnFieldInstance.__init__]. *)
Definition MultiColumnFieldInstance_init_body (owner_field : MultiColumnField)
    (self : MultiColumnFieldInstance) (instance0 : loc) (field0 : MultiColumnField)
    : M MultiColumnFieldInstance :=
  self <~ view_store self "content_type" PyNone (with_content_type self) ;;
  self <~ view_store self "instance" (PyRef instance0) (with_instance self instance0) ;;
  self <~ view_store self "field" (PyField field0) (with_field self field0) ;;
  self <~ view_store self "names" (PyKeys (names owner_field))
            (with_names self (names owner_field)) ;;
  names0 <~ view_getattr self "names" ;;
  names0 <~ py_iter names0 ;;
  _ <~ for_each names0 (λ name,
         field1 <~ view_getattr self "field" ;;
         field_names0 <~ field_names_of field1 ;;
         column <~ py_getitem field_names0 name ;;
         class_setattr (view_class self) name (_make_property self column)) ;;
  ret self.

(** [MultiColumnFieldInstance(instance, field)] for the class generated for
    [owner_field]: the call looks [__init__] up on the class, where a
    property of that name takes the place of the method (what its getter
    returns is no function), and runs it on a new object.  Other special
    names (those that start with two underscores) are not treated
    specially by this model. *)
Definition MultiColumnFieldInstance_init (owner_field : MultiColumnField)
    (instance0 : loc) (field0 : MultiColumnField) : M MultiColumnFieldInstance :=
  λ w, match class_property w (new_view owner_field) "__init__" with
       | Some p => (_ <~ property_get p (new_view owner_field) ;; raise TypeError) w
       | None =>
           MultiColumnFieldInstance_init_body owner_field (new_view owner_field)
             instance0 field0 w
       end.

(** The body of [to_dict] (lines 25 to 29). *)
Definition to_dict (self : MultiColumnFieldInstance) : M (gmap string pyobj) :=
  names0 <~ view_getattr self "names" ;;
  names0 <~ py_iter names0 ;;
  for_fold names0 ∅ (λ d name,
    i <~ view_instance self ;;
    field1 <~ view_getattr self "field" ;;
    field_names0 <~ field_names_of field1 ;;
    column <~ py_getitem field_names0 name ;;
    column <~ attr_name column ;;
    v <~ getattr_default i column PyNone ;;
    ret (<[name := v]> d)).

(** [view.to_dict()]: the attribute is looked up first, and a property of
    that name on the class takes the place of the method; what its getter
    returns is no function. *)
Definition call_to_dict (self : MultiColumnFieldInstance) : M (gmap string pyobj) :=
  λ w, match class_property w self "to_dict" with
       | Some p => (_ <~ property_get p self ;; raise TypeError) w
       | None => to_dict self w
       end.

(** ** MultiColumnField *)

(** The value of a [fields] attribute or argument: [None], a dict of
    sub-fields, or any other object. *)
Inductive fields_value :=
| FieldsNone
| FieldsDict (d : list (string * field_spec))
| FieldsObj (v : pyobj).

Definition fields_truthy (v : fields_value) : bool :=
  match v with
  | FieldsNone => false
  | FieldsDict [] => false
  | FieldsDict (_ :: _) => true
  | FieldsObj x => truthy x
  end.

(** [**kwargs]: the ['fields'] entry, if any, and the other entries. *)
Record kwargs := {
  kw_fields : option fields_value;
  kw_rest : gmap string pyobj;
}.

(** [kwargs.pop('fields', None)] *)
Definition pop_fields (kw : kwargs) : fields_value * kwargs :=
  (default FieldsNone (kw_fields kw),
   {| kw_fields := None; kw_rest := kw_rest kw |}).

(** Host: [Field.__init__(self, *args, **kwargs)].  It has no parameter
    called [fields], so that keyword is refused with [TypeError]; the other
    arguments are taken to be ones it accepts. *)
Definition Field_init (kw : kwargs) : outcome unit :=
  match kw_fields kw with
  | Some _ => Raise TypeError
  | None => Ok tt
  end.

(** [MultiColumnField.__init__].  [class_fields] is the class-level [fields]
    attribute found by the lookup [self.fields]: [None] when no class of
    the hierarchy declares one ([MultiColumnField] itself does not, and
    neither does the host's [Field]), in which case the lookup raises.  The
    name [ValidationError] is not bound in fields.py, so evaluating the
    [raise] statement raises [NameError].  On success the result is the
    new [self.fields] and the keyword arguments [super().__init__] got. *)
Definition MultiColumnField_init (class_fields : option fields_value)
    (kw : kwargs) : outcome (fields_value * kwargs) :=
  match class_fields with
  | None => Raise (AttributeError "fields")
  | Some cf =>
      let '(self_fields, kw') :=
        if negb (fields_truthy cf) then pop_fields kw else (cf, kw) in
      if negb (fields_truthy self_fields)
      then Raise (NameError "ValidationError")
      else match Field_init kw' with
           | Ok _ => Ok (self_fields, kw')
           | Raise e => Raise e
           end
  end.

(** The owning model class: the columns registered through [add_to_class],
    in registration order, and the descriptors set on the class. *)
Record model_class := {
  local_fields : list (string * field_spec);
  class_attrs : gmap string MultiColumnField;
}.

(** Host: [cls.add_to_class(field_name, field)] *)
Definition add_to_class (cls : model_class) (field_name : string)
    (fld : field_spec) : model_class :=
  {| local_fields := local_fields cls ++ [(field_name, fld)];
     class_attrs := class_attrs cls |}.

(** ["%s_%s" % (name, suffix)] *)
Definition format_field_name (name0 suffix : string) : string :=
  name0 +:+ "_" +:+ suffix.

(** [_generate_instance_class]: a new class object without properties yet;
    they are installed by the first [__init__]. *)
Definition _generate_instance_class (w : world) : class_id * world :=
  let c := fresh (dom (classes w)) in
  (c, {| objs := objs w; classes := <[c := ∅]> (classes w); db := db w |}).

(** The loop of [contribute_to_class] over [self.fields.items()]. *)
Definition register_columns (name0 : string) (flds : list (string * field_spec))
    (acc : gmap string string * model_class) : gmap string string * model_class :=
  fold_left (λ '(fn, cls) '(suffix, fld),
               let field_name := format_field_name name0 suffix in
               (<[suffix := field_name]> fn, add_to_class cls field_name fld))
            flds acc.

(** [MultiColumnField.contribute_to_class(self, cls, name)], for a field
    whose [self.fields] is the dict [self_fields].  [md5] stands for
    [md5(s.encode()).hexdigest()]. *)
Definition contribute_to_class (md5 : string → string)
    (self_fields : list (string * field_spec)) (cls : model_class)
    (name0 : string) (w : world) : MultiColumnField * model_class * world :=
  let '(fn, cls1) := register_columns name0 self_fields (∅, cls) in
  let '(c, w') := _generate_instance_class w in
  let self := {| fields := self_fields;
                 name := name0;
                 key := md5 name0;
                 names := self_fields.*1;
                 field_names := fn;
                 instance_class := c |} in
  (self,
   {| local_fields := local_fields cls1;
      class_attrs := <[name0 := self]> (class_attrs cls1) |},
   w').

(** What [__get__] returns: the descriptor or a fresh view. *)
Inductive get_result :=
| GetField (f : MultiColumnField)
| GetView (v : MultiColumnFieldInstance).

(** [MultiColumnField.__get__(self, instance)]; [None] is a read on the
    class. *)
Definition __get__ (self : MultiColumnField) (instance0 : option loc) : M get_result :=
  match instance0 with
  | None => ret (GetField self)
  | Some i =>
      v <~ MultiColumnFieldInstance_init self i self ;;
      ret (GetView v)
  end.

(** [isinstance(value, self.instance_class)] *)
Definition isinstance_instance_class (self : MultiColumnField) (value : pyobj)
    : option MultiColumnFieldInstance :=
  match value with
  | PyView v => if decide (view_class v = instance_class self) then Some v else None
  | _ => None
  end.

(** [isinstance(value, dict)] *)
Definition isinstance_dict (value : pyobj) : option (gmap string pyobj) :=
  match value with
  | PyDict d => Some d
  | _ => None
  end.

(** [MultiColumnField.__set__(self, instance, value)] *)
Definition __set__ (self : MultiColumnField) (instance0 : loc) (value : pyobj) : M unit :=
  match isinstance_instance_class self value with
  | Some src =>
      temp_field_instance <~ MultiColumnFieldInstance_init self instance0 self ;;
      for_each (names self) (λ name,
        x <~ view_getattr_default src name PyNone ;;
        view_setattr temp_field_instance name x)
  | None =>
      match isinstance_dict value with
      | Some d =>
          temp_field_instance <~ MultiColumnFieldInstance_init self instance0 self ;;
          for_each (names self) (λ name,
            x <~ dict_getitem d name ;;
            view_setattr temp_field_instance name x)
      | None => raise TypeError
      end
  end.

(** ** override_field_factory *)

(** The [fields] of the generated [OverrideField]; [null] and [blank] are
    forced to [True]. *)
Definition OverrideField_fields (target_field : string) : list (string * field_spec) :=
  [("enable_override", BooleanField false);
   ("override_obj", TargetField target_field true true)].

(** Host: [obj.save()] writes the object's current attribute values to its
    row. *)
Definition Model_save (obj : loc) : M unit :=
  λ w, ({| objs := objs w; classes := classes w;
           db := <[obj := attrs_of w obj]> (db w) |}, Ok tt).

Section AdminMixin.
Context {Request Form : Type}.

(** [obj.save], whatever the host makes of it. *)
Variable save : loc → M unit.

(** [OverrideFieldAdminMixin.save_model(self, request, obj, form, change)]
    of the mixin generated for [field_name]. *)
Definition save_model (field_name : string) (request : Request) (obj : loc)
    (form : Form) (change : bool) : M unit :=
  enabled <~ getattr obj (field_name +:+ "_enable_override") ;;
  _ <~ (if negb (truthy enabled)
        then setattr obj (field_name +:+ "_override_obj") PyNone
        else ret tt) ;;
  save obj.

End AdminMixin.

(** ** The other hooks of the admin mixin *)

(** A value of the template context: a Python list, or any other object. *)
Inductive ctx_value :=
| CtxList (l : list pyobj)
| CtxObj (v : pyobj).

(** [extra_context or {}]: an absent or empty dict gives a new empty one. *)
Definition dict_or_empty (extra_context : option (gmap string ctx_value))
    : gmap string ctx_value :=
  match extra_context with
  | Some d => if bool_decide (d = ∅) then ∅ else d
  | None => ∅
  end.

Section ChangeView.
Context {Request ObjectId FormUrl Response : Type}.

(** [super().change_view], the next class of the method resolution order. *)
Variable super_change_view :
  Request → ObjectId → FormUrl → option (gmap string ctx_value) → M Response.

(** [OverrideFieldAdminMixin.change_view] of the mixin generated for
    [field_name].  [x += [field_name]] extends a list and raises
    [TypeError] on every other value of this model.  The dict handed to
    [super] is the result; that a non-empty dict of the caller is the very
    object updated is not represented. *)
Definition change_view (field_name : string) (request : Request)
    (object_id : ObjectId) (form_url : FormUrl)
    (extra_context : option (gmap string ctx_value)) : M Response :=
  let extra_context := dict_or_empty extra_context in
  match extra_context !! "override_field_name" with
  | Some (CtxList l) =>
      super_change_view request object_id form_url
        (Some (<["override_field_name" := CtxList (l ++ [PyStr field_name])]>
                 extra_context))
  | Some (CtxObj _) => raise TypeError
  | None =>
      super_change_view request object_id form_url
        (Some (<["override_field_name" := CtxList [PyStr field_name]]>
                 extra_context))
  end.

End ChangeView.

Section GetForm.
Context {Request Kw FormField : Type}.

(** [od[k]] of an [OrderedDict] kept as the list of its items. *)
Definition od_get (od : list (string * FormField)) (k : string) : option FormField :=
  snd <$> head (filter (λ p, p.1 = k) od).

(** [od.move_to_end(k)] *)
Definition move_to_end (od : list (string * FormField)) (k : string)
    : M (list (string * FormField)) :=
  match od_get od k with
  | Some v => ret (filter (λ p, p.1 ≠ k) od ++ [(k, v)])
  | None => raise (KeyError k)
  end.

(** [super().get_form]; of the form class it returns, [base_fields]. *)
Variable super_get_form :
  Request → option loc → Kw → M (list (string * FormField)).

(** [OverrideFieldAdminMixin.get_form] of the mixin generated for
    [field_name]; the result is the [base_fields] of the returned form. *)
Definition get_form (field_name : string) (request : Request)
    (obj : option loc) (kwargs0 : Kw) : M (list (string * FormField)) :=
  base_fields <~ super_get_form request obj kwargs0 ;;
  base_fields <~ move_to_end base_fields (field_name +:+ "_enable_override") ;;
  base_fields <~ move_to_end base_fields (field_name +:+ "_override_obj") ;;
  ret base_fields.

End GetForm.

(** The names tracked under [override_field_name] in a context: none when
    the key is absent, undefined when it holds something else than a list. *)
Definition tracked_names (extra_context : option (gmap string ctx_value))
    : option (list pyobj) :=
  match dict_or_empty extra_context !! "override_field_name" with
  | None => Some []
  | Some (CtxList l) => Some l
  | Some (CtxObj _) => None
  end.

(** The mapping of the override pair, as a dict to assign. *)
Definition override_dict (enable : bool) (x : pyobj) : gmap string pyobj :=
  <["enable_override" := PyBool enable]> (<["override_obj" := x]> ∅).

(** ** Auxiliary notions for the statements *)

(** The value [getattr(o, c, None)] sees. *)
Definition col_val (w : world) (o : loc) (c : string) : pyobj :=
  default PyNone (attrs_of w o !! c).

(** What class attachment leaves on the field object: every declared
    sub-field name is bound to its physical column name. *)
Definition attached (f : MultiColumnField) : Prop :=
  names f = (fields f).*1 ∧
  ∀ s, field_names f !! s =
       if decide (s ∈ names f) then Some (format_field_name (name f) s) else None.

(** The view [self.instance_class(instance, self)] builds when no property
    of the class stands in the way of its own attributes. *)
Definition view_on (f : MultiColumnField) (i : loc) : MultiColumnFieldInstance :=
  {| class_owner := f; own_content_type := true; own_instance := Some i;
     own_field := Some f; own_names := Some (names f) |}.

(** Names a sub-field cannot bear without getting in the way of the view
    object: the attributes [__init__] assigns, the method [to_dict], and
    Python's special names. *)
Definition reserved (n : string) : bool :=
  bool_decide (n ∈ ["content_type"; "instance"; "field"; "names"; "to_dict"])
  || String.prefix "__" n.

Definition ordinary_names (ns : list string) : Prop :=
  Forall (λ n, reserved n = false) ns.

(** What a column shows: the value it is bound to and, when that is a
    reference, the attributes of the object referred to. *)
Definition column_state (w : world) (o : loc) (c : string)
    : option (pyobj * gmap string pyobj) :=
  match attrs_of w o !! c with
  | Some (PyRef r) => Some (PyRef r, attrs_of w r)
  | Some v => Some (v, ∅)
  | None => None
  end.

(** A worked example: the override pair of a [CharField], attached to a
    model class under the attribute name [price]. *)
Definition example_digest (s : string) : string := s.
Definition example_world : world := {| objs := ∅; classes := ∅; db := ∅ |}.
Definition example_class : model_class := {| local_fields := []; class_attrs := ∅ |}.
Definition example_fields : list (string * field_spec) := OverrideField_fields "CharField".
Definition example_attach : MultiColumnField * model_class * world :=
  contribute_to_class example_digest example_fields example_class "price" example_world.
Definition example_field : MultiColumnField := example_attach.1.1.

(** A field in the manner of a generic relation, with a sub-field called
    [content_type], attached under the attribute name [target]; and one
    with a sub-field called [names], attached under [alias]. *)
Definition generic_fields : list (string * field_spec) :=
  [("content_type", TargetField "ForeignKey" true true);
   ("object_id", TargetField "PositiveIntegerField" true true)].
Definition generic_attach : MultiColumnField * model_class * world :=
  contribute_to_class example_digest generic_fields example_class "target" example_world.
Definition generic_field : MultiColumnField := generic_attach.1.1.

Definition alias_fields : list (string * field_spec) :=
  [("names", TargetField "CharField" true true)].
Definition alias_attach : MultiColumnField * model_class * world :=
  contribute_to_class example_digest alias_fields example_class "alias" example_world.
Definition alias_field : MultiColumnField := alias_attach.1.1.

(** A field with a sub-field called [field], attached under [link] to the
    class that already has [price]. *)
Definition shadow_fields : list (string * field_spec) :=
  [("field", TargetField "CharField" true true);
   ("override_obj", TargetField "CharField" true true)].
Definition shadow_attach : MultiColumnField * model_class * world :=
  contribute_to_class example_digest shadow_fields example_attach.1.2 "link"
    example_attach.2.
Definition shadow_field : MultiColumnField := shadow_attach.1.1.

(** * Properties *)

(** ** The monad and the world *)

Lemma for_each_nil {A} (body : A → M unit) w : for_each [] body w = (w, Ok tt).
Proof. reflexivity. Qed.

Lemma for_each_cons {A} (x : A) l (body : A → M unit) w :
  for_each (x :: l) body w = (_ <~ body x ;; for_each l body) w.
Proof.
  unfold for_each, bind; simpl. unfold bind.
  destruct (body x w) as [w' [[]|e]]; reflexivity.
Qed.

Lemma bind_run {A B} (c : M A) (k : A → M B) w w' a :
  c w = (w', Ok a) → bind c k w = k a w'.
Proof. unfold bind. by intros ->. Qed.

Lemma bind_raise {A B} (c : M A) (k : A → M B) w w' e :
  c w = (w', Raise e) → bind c k w = (w', Raise e).
Proof. unfold bind. by intros ->. Qed.

Lemma attrs_of_set_attr_eq o a v w :
  attrs_of (set_attr o a v w) o = <[a := v]> (attrs_of w o).
Proof. unfold attrs_of at 1; simpl. by rewrite lookup_insert_eq. Qed.

Lemma attrs_of_set_attr_ne o o' a v w :
  o ≠ o' → attrs_of (set_attr o a v w) o' = attrs_of w o'.
Proof. intros Hne. unfold attrs_of; simpl. by rewrite lookup_insert_ne. Qed.

Lemma class_props_set_class_attr_eq c a p w :
  class_props (set_class_attr c a p w) c = <[a := p]> (class_props w c).
Proof. unfold class_props at 1; simpl. by rewrite lookup_insert_eq. Qed.

Lemma col_val_copy w a b c c' :
  col_val (set_attr b c (col_val w a c) w) a c' = col_val w a c'.
Proof.
  unfold col_val. destruct (decide (b = a)) as [->|Hne].
  - rewrite attrs_of_set_attr_eq. destruct (decide (c = c')) as [->|Hc].
    + by rewrite lookup_insert_eq.
    + by rewrite lookup_insert_ne.
  - by rewrite attrs_of_set_attr_ne.
Qed.

Lemma format_field_name_inj name0 : Inj (=) (=) (format_field_name name0).
Proof.
  intros s1 s2 Heq. unfold format_field_name in Heq.
  apply String.app_inj in Heq. by apply String.app_inj in Heq.
Qed.

(** ** Class attachment *)

Lemma register_columns_spec name0 flds fn cls :
  register_columns name0 flds (fn, cls) =
  (foldl (λ m s, <[s := format_field_name name0 s]> m) fn flds.*1,
   {| local_fields :=
        local_fields cls ++ ((λ p, (format_field_name name0 p.1, p.2)) <$> flds);
      class_attrs := class_attrs cls |}).
Proof.
  unfold register_columns. revert fn cls.
  induction flds as [|[s fld] flds IH]; intros fn cls; simpl.
  - rewrite app_nil_r. by destruct cls.
  - rewrite IH. simpl. by rewrite <- app_assoc.
Qed.

Lemma foldl_insert_lookup (g : string → string) (l : list string)
    (m : gmap string string) s :
  foldl (λ m s, <[s := g s]> m) m l !! s =
  if decide (s ∈ l) then Some (g s) else m !! s.
Proof.
  revert m. induction l as [|x l IH]; intros m.
  - simpl. destruct (decide (s ∈ [])) as [Hin|_]; [by apply elem_of_nil in Hin | done].
  - simpl foldl. rewrite IH.
    destruct (decide (s ∈ l)) as [Hl|Hl], (decide (s ∈ x :: l)) as [Hxl|Hxl];
      try done.
    + exfalso. apply Hxl, elem_of_cons. by right.
    + apply elem_of_cons in Hxl as [->|Hin]; [by rewrite lookup_insert_eq | done].
    + rewrite lookup_insert_ne; [done |]. intros ->.
      apply Hxl, elem_of_cons. by left.
Qed.

Lemma contribute_to_class_attached md5 flds cls name0 w f cls' w' :
  contribute_to_class md5 flds cls name0 w = (f, cls', w') →
  attached f ∧ fields f = flds ∧ name f = name0.
Proof.
  unfold contribute_to_class. rewrite register_columns_spec. simpl.
  intros [= <- _ _]. unfold attached; simpl. repeat split.
  intros s. by rewrite foldl_insert_lookup, lookup_empty.
Qed.

(** ** Building a view *)

Lemma class_property_reserved w self attr :
  ordinary_names (names (class_owner self)) → reserved attr = true →
  class_property w self attr = None.
Proof.
  intros Hord Hres. unfold class_property.
  destruct (decide (attr ∈ names (class_owner self))) as [Hin|]; [| done].
  unfold ordinary_names in Hord. rewrite Forall_forall in Hord.
  rewrite (Hord _ Hin) in Hres. discriminate.
Qed.

Lemma class_property_declared w self attr :
  attr ∈ names (class_owner self) →
  class_property w self attr = class_props w (view_class self) !! attr.
Proof. intros Hin. unfold class_property. by rewrite decide_True. Qed.

Lemma view_instance_spec f i w :
  ordinary_names (names f) → view_instance (view_on f i) w = (w, Ok i).
Proof.
  intros Hord. unfold view_instance.
  by rewrite class_property_reserved.
Qed.

Lemma view_field_spec f i w :
  ordinary_names (names f) →
  view_getattr (view_on f i) "field" w = (w, Ok (PyField f)).
Proof.
  intros Hord. unfold view_getattr. by rewrite class_property_reserved.
Qed.

Lemma view_names_spec f i w :
  ordinary_names (names f) →
  view_getattr (view_on f i) "names" w = (w, Ok (PyKeys (names f))).
Proof.
  intros Hord. unfold view_getattr. by rewrite class_property_reserved.
Qed.

Lemma view_store_reserved w self attr value assigned :
  ordinary_names (names (class_owner self)) → reserved attr = true →
  view_store self attr value assigned w = (w, Ok assigned).
Proof.
  intros Hord Hres. unfold view_store. by rewrite class_property_reserved.
Qed.

(** The column a declared name gets, read off [self.field] of an
    undisturbed view. *)
Lemma view_column_spec f i n w col :
  ordinary_names (names f) → field_names f !! n = Some col →
  (field1 <~ view_getattr (view_on f i) "field" ;;
   field_names0 <~ field_names_of field1 ;;
   py_getitem field_names0 n) w = (w, Ok (PyStr col)).
Proof.
  intros Hord Hcol.
  rewrite (bind_run _ _ _ _ _ (view_field_spec f i w Hord)).
  cbn [field_names_of]. unfold bind, ret, py_getitem, dict_getitem.
  by rewrite lookup_fmap, Hcol.
Qed.

Lemma install_loop f i ns w :
  ordinary_names (names f) →
  (∀ n, n ∈ ns → is_Some (field_names f !! n)) →
  ∃ w', for_each ns (λ name,
          field1 <~ view_getattr (view_on f i) "field" ;;
          field_names0 <~ field_names_of field1 ;;
          column <~ py_getitem field_names0 name ;;
          class_setattr (view_class (view_on f i)) name
            (_make_property (view_on f i) column)) w = (w', Ok tt)
        ∧ objs w' = objs w ∧ db w' = db w
        ∧ (∀ n, n ∈ ns →
             class_props w' (instance_class f) !! n = PyStr <$> field_names f !! n)
        ∧ (∀ n, n ∉ ns →
             class_props w' (instance_class f) !! n
             = class_props w (instance_class f) !! n).
Proof.
  intros Hord. revert w. induction ns as [|n0 ns IH]; intros w Hfn.
  - exists w. rewrite for_each_nil. split_and!; try done.
    intros n Hin. by apply elem_of_nil in Hin.
  - destruct (Hfn n0) as [col Hcol]; [apply elem_of_cons; by left |].
    destruct (IH (set_class_attr (instance_class f) n0 (PyStr col) w))
      as (w' & Hrun & Hobjs & Hdb & Hin & Hout).
    { intros n Hn. apply Hfn, elem_of_cons. by right. }
    exists w'. rewrite for_each_cons.
    rewrite (bind_run _ _ w (set_class_attr (instance_class f) n0 (PyStr col) w) tt).
    2: { pose proof (view_column_spec f i n0 w col Hord Hcol) as Hc.
         unfold bind in Hc |- *.
         destruct (view_getattr (view_on f i) "field" w) as [w1 [x|e]]; [| done].
         destruct (field_names_of x w1) as [w2 [y|e]]; [| done].
         by rewrite Hc. }
    rewrite Hrun. split_and!; try done.
    + intros n Hn. destruct (decide (n ∈ ns)) as [Hns|Hns]; [by apply Hin |].
      apply elem_of_cons in Hn as [->|Hn]; [| done].
      rewrite (Hout _ Hns), class_props_set_class_attr_eq, lookup_insert_eq.
      by rewrite Hcol.
    + intros n Hn. rewrite Hout.
      * rewrite class_props_set_class_attr_eq, lookup_insert_ne; [done |].
        intros ->. apply Hn, elem_of_cons. by left.
      * intros Hns. apply Hn, elem_of_cons. by right.
Qed.

Lemma MultiColumnFieldInstance_init_spec f i w :
  attached f → ordinary_names (names f) →
  ∃ w', MultiColumnFieldInstance_init f i f w = (w', Ok (view_on f i))
        ∧ objs w' = objs w ∧ db w' = db w
        ∧ ∀ n, n ∈ names f →
            class_props w' (instance_class f) !! n =
            Some (PyStr (format_field_name (name f) n)).
Proof.
  intros [_ Hfn] Hord.
  destruct (install_loop f i (names f) w Hord)
    as (w' & Hrun & Hobjs & Hdb & Hin & _).
  { intros n Hn. rewrite Hfn, decide_True by done. eauto. }
  exists w'. split_and!; try done.
  - unfold MultiColumnFieldInstance_init.
    rewrite class_property_reserved by done.
    unfold MultiColumnFieldInstance_init_body.
    rewrite (bind_run _ _ w w (with_content_type (new_view f)))
      by by apply view_store_reserved.
    rewrite (bind_run _ _ w w (with_instance (with_content_type (new_view f)) i))
      by by apply view_store_reserved.
    rewrite (bind_run _ _ w w
               (with_field (with_instance (with_content_type (new_view f)) i) f))
      by by apply view_store_reserved.
    rewrite (bind_run _ _ w w (view_on f i)) by by apply view_store_reserved.
    rewrite (bind_run _ _ _ _ _ (view_names_spec f i w Hord)).
    cbn [py_iter]. unfold bind at 1, ret at 1.
    by rewrite (bind_run _ _ _ _ _ Hrun).
  - intros n Hn. rewrite (Hin _ Hn), Hfn, decide_True by done. done.
Qed.

(** A view that [__init__] returns is of the class it was asked of, whatever
    the sub-fields are called. *)
Lemma view_store_class_owner self attr value assigned w w' self' :
  class_owner assigned = class_owner self →
  view_store self attr value assigned w = (w', Ok self') →
  class_owner self' = class_owner self.
Proof.
  intros Hown. unfold view_store.
  destruct (class_property w self attr) as [p|].
  - unfold bind, ret. destruct (property_set p self value w) as [w1 [[]|e]]; [| done].
    by intros [= _ <-].
  - by intros [= _ <-].
Qed.

Lemma MultiColumnFieldInstance_init_class_owner owner i fld w w' v :
  MultiColumnFieldInstance_init owner i fld w = (w', Ok v) →
  class_owner v = owner.
Proof.
  unfold MultiColumnFieldInstance_init.
  destruct (class_property w (new_view owner) "__init__") as [p|].
  { unfold bind, raise.
    by destruct (property_get p (new_view owner) w) as [w1 [x|e]]. }
  unfold MultiColumnFieldInstance_init_body.
  unfold bind at 1.
  destruct (view_store (new_view owner) "content_type" _ _ w) as [w1 [s1|e]] eqn:H1;
    [| done].
  apply view_store_class_owner in H1; [| done].
  unfold bind at 1.
  destruct (view_store s1 "instance" _ _ w1) as [w2 [s2|e]] eqn:H2; [| done].
  apply view_store_class_owner in H2; [| done].
  unfold bind at 1.
  destruct (view_store s2 "field" _ _ w2) as [w3 [s3|e]] eqn:H3; [| done].
  apply view_store_class_owner in H3; [| done].
  unfold bind at 1.
  destruct (view_store s3 "names" _ _ w3) as [w4 [s4|e]] eqn:H4; [| done].
  apply view_store_class_owner in H4; [| done].
  unfold bind at 1.
  destruct (view_getattr s4 "names" w4) as [w5 [x|e]]; [| done].
  unfold bind at 1.
  destruct (py_iter x w5) as [w6 [l|e]]; [| done].
  unfold bind at 1.
  destruct (for_each l _ w6) as [w7 [[]|e]]; [| done].
  unfold ret. intros [= _ <-]. cbn in *. congruence.
Qed.

Lemma attrs_of_objs w w' o : objs w' = objs w → attrs_of w' o = attrs_of w o.
Proof. unfold attrs_of. by intros ->. Qed.

Lemma col_val_objs w w' o c : objs w' = objs w → col_val w' o c = col_val w o c.
Proof. intros H. unfold col_val. by rewrite (attrs_of_objs _ _ _ H). Qed.

(** ** Reading: to_dict *)

Lemma to_dict_loop f i ns (acc : gmap string pyobj) w :
  ordinary_names (names f) →
  (∀ n, n ∈ ns → field_names f !! n = Some (format_field_name (name f) n)) →
  ∃ d, for_fold ns acc (λ d name,
         i0 <~ view_instance (view_on f i) ;;
         field1 <~ view_getattr (view_on f i) "field" ;;
         field_names0 <~ field_names_of field1 ;;
         column <~ py_getitem field_names0 name ;;
         column <~ attr_name column ;;
         v <~ getattr_default i0 column PyNone ;;
         ret (<[name := v]> d)) w = (w, Ok d)
       ∧ ∀ n, d !! n = if decide (n ∈ ns)
                       then Some (col_val w i (format_field_name (name f) n))
                       else acc !! n.
Proof.
  intros Hord. revert acc. induction ns as [|n0 ns IH]; intros acc Hfn.
  - exists acc. split; [done |]. intros n.
    destruct (decide (n ∈ [])) as [Hin|_]; [by apply elem_of_nil in Hin | done].
  - destruct (IH (<[n0 := col_val w i (format_field_name (name f) n0)]> acc))
      as (d & Hrun & Hd).
    { intros n Hn. apply Hfn, elem_of_cons. by right. }
    exists d. split.
    + cbn [for_fold].
      rewrite (bind_run _ _ w w
                 (<[n0 := col_val w i (format_field_name (name f) n0)]> acc));
        [done |].
      rewrite (bind_run _ _ _ _ _ (view_instance_spec f i w Hord)).
      rewrite (bind_run _ _ _ _ _ (view_field_spec f i w Hord)).
      cbn [field_names_of]. unfold bind at 1, ret at 1.
      unfold py_getitem, dict_getitem.
      rewrite lookup_fmap, (Hfn n0) by (apply elem_of_cons; by left).
      done.
    + intros n. rewrite Hd.
      destruct (decide (n ∈ ns)) as [Hl|Hl], (decide (n ∈ n0 :: ns)) as [Hxl|Hxl];
        try done.
      * exfalso. apply Hxl, elem_of_cons. by right.
      * apply elem_of_cons in Hxl as [->|Hin]; [by rewrite lookup_insert_eq | done].
      * rewrite lookup_insert_ne; [done |]. intros ->.
        apply Hxl, elem_of_cons. by left.
Qed.

(** [to_dict] on a view of an attached field with ordinary sub-field names:
    total, leaves the world as it is, and has exactly the declared names as
    keys, each bound to what [getattr(instance, column, None)] sees now. *)
Lemma to_dict_spec f i w :
  attached f → ordinary_names (names f) →
  ∃ d, to_dict (view_on f i) w = (w, Ok d)
       ∧ call_to_dict (view_on f i) w = (w, Ok d)
       ∧ ∀ n, d !! n = if decide (n ∈ names f)
                       then Some (col_val w i (format_field_name (name f) n))
                       else None.
Proof.
  intros [_ Hfn] Hord.
  destruct (to_dict_loop f i (names f) ∅ w Hord) as (d & Hrun & Hd).
  { intros n Hn. by rewrite Hfn, decide_True. }
  assert (Hbody : to_dict (view_on f i) w = (w, Ok d)).
  { unfold to_dict. rewrite (bind_run _ _ _ _ _ (view_names_spec f i w Hord)).
    cbn [py_iter]. unfold bind at 1, ret at 1. exact Hrun. }
  exists d. split_and!; [done | |].
  - unfold call_to_dict. by rewrite class_property_reserved.
  - intros n. rewrite Hd.
    destruct (decide (n ∈ names f)); [done | apply lookup_empty].
Qed.

(** ** Writing: the loops of __set__ *)

Lemma class_props_set_attr o a v w c : class_props (set_attr o a v w) c = class_props w c.
Proof. reflexivity. Qed.

Lemma view_setattr_spec f i n x w c :
  ordinary_names (names f) → n ∈ names f →
  class_props w (instance_class f) !! n = Some (PyStr c) →
  view_setattr (view_on f i) n x w = (set_attr i c x w, Ok tt).
Proof.
  intros Hord Hn Hp. unfold view_setattr.
  rewrite class_property_declared by done.
  change (view_class (view_on f i)) with (instance_class f).
  rewrite Hp. unfold property_set.
  by rewrite (bind_run _ _ _ _ _ (view_instance_spec f i w Hord)).
Qed.

Lemma view_getattr_default_spec f a n w c :
  ordinary_names (names f) → n ∈ names f →
  class_props w (instance_class f) !! n = Some (PyStr c) →
  view_getattr_default (view_on f a) n PyNone w = (w, Ok (col_val w a c)).
Proof.
  intros Hord Hn Hp. unfold view_getattr_default, view_getattr.
  rewrite class_property_declared by done.
  change (view_class (view_on f a)) with (instance_class f).
  rewrite Hp. unfold property_get.
  rewrite (bind_run _ _ _ _ _ (view_instance_spec f a w Hord)).
  cbn [attr_name]. unfold bind, ret, getattr, col_val.
  by destruct (attrs_of w a !! c).
Qed.

(** Both loops of [__set__] read a value for each name and write it through
    the property of the target view.  [val w n] is the value read for [n]
    in world [w]; it must not be disturbed by the loop's own writes. *)
Lemma write_loop f b (rd : string → M pyobj) (val : world → string → pyobj) ns w :
  ordinary_names (names f) →
  (∀ n, n ∈ ns → n ∈ names f) →
  (∀ w0 m n, val (set_attr b (format_field_name (name f) m) (val w0 m) w0) n
             = val w0 n) →
  (∀ n w0, n ∈ ns →
           class_props w0 (instance_class f) !! n
           = Some (PyStr (format_field_name (name f) n)) →
           rd n w0 = (w0, Ok (val w0 n))) →
  (∀ n, n ∈ ns → class_props w (instance_class f) !! n
                 = Some (PyStr (format_field_name (name f) n))) →
  ∃ w', for_each ns (λ name, x <~ rd name ;; view_setattr (view_on f b) name x) w
        = (w', Ok tt)
        ∧ classes w' = classes w ∧ db w' = db w
        ∧ (∀ n, n ∈ ns →
             attrs_of w' b !! format_field_name (name f) n = Some (val w n))
        ∧ (∀ c, (∀ n, n ∈ ns → c ≠ format_field_name (name f) n) →
                attrs_of w' b !! c = attrs_of w b !! c)
        ∧ (∀ o, o ≠ b → attrs_of w' o = attrs_of w o)
        ∧ (∀ n, val w' n = val w n).
Proof.
  intros Hord Hsub Hstable. revert w Hsub.
  induction ns as [|n0 ns IH]; intros w Hsub Hrd Hprops.
  - exists w. rewrite for_each_nil. split_and!; try done.
    intros n Hin. by apply elem_of_nil in Hin.
  - assert (Hn0 : n0 ∈ n0 :: ns) by (apply elem_of_cons; by left).
    assert (Hp0 : class_props w (instance_class f) !! n0
                  = Some (PyStr (format_field_name (name f) n0)))
      by by apply Hprops.
    set (w1 := set_attr b (format_field_name (name f) n0) (val w n0) w).
    destruct (IH w1) as (w' & Hrun & Hcls & Hdb & Hin & Hout & Hoth & Hval).
    { intros n Hn. apply Hsub, elem_of_cons. by right. }
    { intros n w0 Hn. apply Hrd, elem_of_cons. by right. }
    { intros n Hn. unfold w1. rewrite class_props_set_attr.
      apply Hprops, elem_of_cons. by right. }
    exists w'. rewrite for_each_cons.
    rewrite (bind_run _ _ w w1 tt).
    2: { rewrite (bind_run _ _ w w (val w n0)) by by apply Hrd.
         apply view_setattr_spec; [done | by apply Hsub | done]. }
    rewrite Hrun. split_and!; try done.
    + intros n Hn. destruct (decide (n ∈ ns)) as [Hns|Hns].
      * rewrite (Hin _ Hns). unfold w1. by rewrite Hstable.
      * apply elem_of_cons in Hn as [->|Hn]; [| done].
        rewrite Hout.
        -- unfold w1. by rewrite attrs_of_set_attr_eq, lookup_insert_eq.
        -- intros n Hn Heq. apply format_field_name_inj in Heq. by subst.
    + intros c Hc. rewrite Hout.
      * unfold w1. rewrite attrs_of_set_attr_eq, lookup_insert_ne; [done |].
        intros <-. apply (Hc n0); [apply elem_of_cons; by left | done].
      * intros n Hn. apply Hc, elem_of_cons. by right.
    + intros o Ho. rewrite (Hoth _ Ho). unfold w1.
      by rewrite attrs_of_set_attr_ne.
    + intros n. rewrite Hval. unfold w1. by rewrite Hstable.
Qed.

(** ** Descriptor access on an attached field *)

Lemma get_spec f i w :
  attached f → ordinary_names (names f) →
  ∃ w', __get__ f (Some i) w = (w', Ok (GetView (view_on f i)))
        ∧ objs w' = objs w ∧ db w' = db w
        ∧ ∀ n, n ∈ names f →
            class_props w' (instance_class f) !! n =
            Some (PyStr (format_field_name (name f) n)).
Proof.
  intros Hf Hord. destruct (MultiColumnFieldInstance_init_spec f i w Hf Hord)
    as (w' & Hrun & Hobjs & Hdb & Hprops).
  exists w'. split_and!; try done.
  unfold __get__. by rewrite (bind_run _ _ _ _ _ Hrun).
Qed.

Lemma to_dict_ext f i j w w' :
  attached f → ordinary_names (names f) →
  (∀ n, n ∈ names f →
        col_val w i (format_field_name (name f) n) =
        col_val w' j (format_field_name (name f) n)) →
  ∃ d, call_to_dict (view_on f i) w = (w, Ok d)
       ∧ call_to_dict (view_on f j) w' = (w', Ok d).
Proof.
  intros Hf Hord Heq.
  destruct (to_dict_spec f i w Hf Hord) as (d & _ & Hrun & Hd).
  destruct (to_dict_spec f j w' Hf Hord) as (d' & _ & Hrun' & Hd').
  exists d. split; [done |]. replace d with d'; [done |].
  apply map_eq. intros n. rewrite Hd, Hd'.
  destruct (decide (n ∈ names f)); [| done]. by rewrite Heq.
Qed.

Lemma set_dict_spec f i (d : gmap string pyobj) w :
  attached f → ordinary_names (names f) →
  (∀ n, n ∈ names f → is_Some (d !! n)) →
  ∃ w', __set__ f i (PyDict d) w = (w', Ok tt) ∧ db w' = db w
        ∧ (∀ n, n ∈ names f →
                attrs_of w' i !! format_field_name (name f) n = d !! n)
        ∧ (∀ c, (∀ n, n ∈ names f → c ≠ format_field_name (name f) n) →
                attrs_of w' i !! c = attrs_of w i !! c)
        ∧ (∀ o, o ≠ i → attrs_of w' o = attrs_of w o).
Proof.
  intros Hf Hord Hd.
  destruct (MultiColumnFieldInstance_init_spec f i w Hf Hord)
    as (w1 & Hinit & Hobjs & Hdb & Hprops).
  destruct (write_loop f i (dict_getitem d) (λ _ n, default PyNone (d !! n))
              (names f) w1)
    as (w' & Hrun & _ & Hdb' & Hin & Hout & Hoth & _); try done.
  { intros n w0 Hn _. unfold dict_getitem. by destruct (Hd _ Hn) as [x ->]. }
  exists w'. split_and!.
  - unfold __set__. cbn [isinstance_instance_class isinstance_dict].
    rewrite (bind_run _ _ _ _ _ Hinit). exact Hrun.
  - congruence.
  - intros n Hn. rewrite (Hin _ Hn). destruct (Hd _ Hn) as [x ->]. done.
  - intros c Hc. by rewrite (Hout _ Hc), (attrs_of_objs _ _ _ Hobjs).
  - intros o Ho. by rewrite (Hoth _ Ho), (attrs_of_objs _ _ _ Hobjs).
Qed.

Lemma set_view_spec f a b w :
  attached f → ordinary_names (names f) →
  ∃ w', __set__ f b (PyView (view_on f a)) w = (w', Ok tt) ∧ db w' = db w
        ∧ (∀ n, n ∈ names f →
                attrs_of w' b !! format_field_name (name f) n =
                Some (col_val w a (format_field_name (name f) n)))
        ∧ (∀ c, (∀ n, n ∈ names f → c ≠ format_field_name (name f) n) →
                attrs_of w' b !! c = attrs_of w b !! c)
        ∧ (∀ o, o ≠ b → attrs_of w' o = attrs_of w o)
        ∧ (∀ n, col_val w' a (format_field_name (name f) n) =
                col_val w a (format_field_name (name f) n)).
Proof.
  intros Hf Hord.
  destruct (MultiColumnFieldInstance_init_spec f b w Hf Hord)
    as (w1 & Hinit & Hobjs & Hdb & Hprops).
  destruct (write_loop f b (λ n, view_getattr_default (view_on f a) n PyNone)
              (λ w0 n, col_val w0 a (format_field_name (name f) n))
              (names f) w1)
    as (w' & Hrun & _ & Hdb' & Hin & Hout & Hoth & Hval); try done.
  { intros w0 m n. apply col_val_copy. }
  { intros n w0 Hn Hp. by apply view_getattr_default_spec. }
  exists w'. split_and!.
  - unfold __set__, isinstance_instance_class.
    rewrite decide_True by done.
    rewrite (bind_run _ _ _ _ _ Hinit). exact Hrun.
  - congruence.
  - intros n Hn. by rewrite (Hin _ Hn), (col_val_objs _ _ _ _ Hobjs).
  - intros c Hc. by rewrite (Hout _ Hc), (attrs_of_objs _ _ _ Hobjs).
  - intros o Ho. by rewrite (Hoth _ Ho), (attrs_of_objs _ _ _ Hobjs).
  - intros n. by rewrite Hval, (col_val_objs _ _ _ _ Hobjs).
Qed.

Lemma get_view_inv f i w w' v :
  attached f → ordinary_names (names f) →
  __get__ f (Some i) w = (w', Ok (GetView v)) →
  v = view_on f i ∧ objs w' = objs w ∧ db w' = db w
  ∧ ∀ n, n ∈ names f →
      class_props w' (instance_class f) !! n
      = Some (PyStr (format_field_name (name f) n)).
Proof.
  intros Hf Hord Hget.
  destruct (get_spec f i w Hf Hord) as (w2 & Hrun & Hobjs & Hdb & Hp).
  rewrite Hrun in Hget. injection Hget as <- <-. done.
Qed.

(** A view that [__get__] returns is of the field's generated class. *)
Lemma get_view_class f i w w' v :
  __get__ f (Some i) w = (w', Ok (GetView v)) → view_class v = instance_class f.
Proof.
  unfold __get__, bind, ret.
  destruct (MultiColumnFieldInstance_init f i f w) as [w1 [v1|e]] eqn:Hinit;
    [| done].
  intros [= _ <-]. unfold view_class.
  by rewrite (MultiColumnFieldInstance_init_class_owner _ _ _ _ _ _ Hinit).
Qed.

(** Class attachment keeps the declared names. *)
Lemma contribute_to_class_ordinary md5 flds cls name0 w f cls' w' :
  ordinary_names flds.*1 →
  contribute_to_class md5 flds cls name0 w = (f, cls', w') →
  attached f ∧ ordinary_names (names f) ∧ fields f = flds ∧ name f = name0.
Proof.
  intros Hord Hctc.
  destruct (contribute_to_class_attached _ _ _ _ _ _ _ _ Hctc)
    as (Hf & Hflds & Hname).
  split_and!; try done. destruct Hf as [-> _]. by rewrite Hflds.
Qed.

(** ** The override pair *)

(** The attribute names the admin mixin builds by [field_name + '_...'] are
    the column names class attachment gives the two sub-fields when the
    field is attached under [field_name]. *)
Lemma override_column_names field_name :
  format_field_name field_name "enable_override" = field_name +:+ "_enable_override"
  ∧ format_field_name field_name "override_obj" = field_name +:+ "_override_obj".
Proof. split; reflexivity. Qed.

Lemma example_fields_ordinary : ordinary_names example_fields.*1.
Proof. by repeat constructor. Qed.

Lemma override_fields_ordinary target : ordinary_names (OverrideField_fields target).*1.
Proof. by repeat constructor. Qed.

(** A dict without [override_obj] fails at that name, after the write of
    [enable_override] has already reached the instance. *)
Example set_mapping_missing_key_partial_write :
  let r := __set__ example_field 7
             (PyDict (<["enable_override" := PyBool true]> ∅)) example_attach.2 in
  r.2 = Raise (KeyError "override_obj")
  ∧ attrs_of r.1 7 !! "price_enable_override" = Some (PyBool true)
  ∧ attrs_of example_attach.2 7 !! "price_enable_override" = None.
Proof. split_and!; reflexivity. Qed.

(** * Main results *)

(** C1.  Class attachment of a field declared with a mapping of N entries
    registers exactly N physical columns on the owning class, after the
    columns already there: the i-th is named [<name>_<suffix>] for the i-th
    entry of the mapping and carries that entry's sub-field, so they come
    in the mapping's order and their names are pairwise distinct.
    [field_names] binds every suffix to its column name and nothing else,
    [names] lists the suffixes, and the field is set on the class under
    its attribute name. *)
Theorem contribute_to_class_registers_columns md5 flds cls name0 w f cls' w' :
  NoDup flds.*1 →
  contribute_to_class md5 flds cls name0 w = (f, cls', w') →
  local_fields cls' =
    local_fields cls ++ ((λ p, (format_field_name name0 p.1, p.2)) <$> flds)
  ∧ length (local_fields cls') = length (local_fields cls) + length flds
  ∧ NoDup ((λ p, format_field_name name0 p.1) <$> flds)
  ∧ (∀ suffix, field_names f !! suffix =
        if decide (suffix ∈ flds.*1)
        then Some (format_field_name name0 suffix) else None)
  ∧ names f = flds.*1
  ∧ class_attrs cls' !! name0 = Some f.
Proof.
  intros Hnodup Hctc.
  destruct (contribute_to_class_attached _ _ _ _ _ _ _ _ Hctc)
    as ([Hnames Hfn] & Hflds & Hname).
  revert Hctc. unfold contribute_to_class.
  rewrite register_columns_spec. cbn -[format_field_name].
  intros [= Hf Hcls' _].
  assert (Hlf : local_fields cls' =
    local_fields cls ++ ((λ p, (format_field_name name0 p.1, p.2)) <$> flds))
    by by rewrite <- Hcls'.
  split_and!.
  - exact Hlf.
  - by rewrite Hlf, length_app, length_fmap.
  - change (NoDup ((format_field_name name0 ∘ fst) <$> flds)).
    rewrite list_fmap_compose.
    apply NoDup_fmap_2; [apply format_field_name_inj | done].
  - intros suffix. rewrite Hfn, Hnames, Hflds, Hname. done.
  - by rewrite Hnames, Hflds.
  - rewrite <- Hcls'. cbn. rewrite lookup_insert_eq. by rewrite Hf.
Qed.

Lemma contribute_to_class_registers_columns_witness :
  NoDup example_fields.*1
  ∧ local_fields example_attach.1.2 =
      [("price_enable_override", BooleanField false);
       ("price_override_obj", TargetField "CharField" true true)]
  ∧ field_names example_field !! "override_obj" = Some "price_override_obj".
Proof.
  assert (Hnodup : NoDup example_fields.*1) by compute_done.
  split; [exact Hnodup |].
  destruct (contribute_to_class_registers_columns example_digest example_fields
              example_class "price" example_world
              example_field example_attach.1.2 example_attach.2
              Hnodup eq_refl) as (Hcols & _ & _ & Hfn & _).
  split; [exact Hcols | exact (Hfn "override_obj")].
Defined.

(** C2.  With a sub-field called [content_type] the round trip breaks.
    Assigning a complete mapping builds the first view of the class and
    succeeds; by then the class has a property [content_type], so the read
    that follows fails in [__init__] at [self.content_type = None]: the
    property's setter asks for [self.instance], which is not yet set.  The
    attribute cannot be read, and there is no [to_dict()] to compare. *)
Theorem set_mapping_then_get_raises_on_content_type :
  let d : gmap string pyobj :=
    <["content_type" := PyInt 3]> (<["object_id" := PyInt 5]> ∅) in
  dom d = list_to_set (names generic_field)
  ∧ ∃ w', __set__ generic_field 7 (PyDict d) generic_attach.2 = (w', Ok tt)
          ∧ __get__ generic_field (Some 7) w'
            = (w', Raise (AttributeError "instance")).
Proof.
  intros d. split; [reflexivity |].
  eexists. split; vm_compute; reflexivity.
Qed.

(** C3, where the claim fails.  The column of instance 1 refers to an
    object (here object 9, say a related row).  After the view of 1 is
    assigned to instance 2, the column of 2 refers to that same object:
    changing the object in place through the column of 1 changes what the
    column of 2 shows. *)
Lemma set_view_shares_value_objects :
  let col := "price_override_obj" in
  let w := set_attr 1 col (PyRef 9)
             (set_attr 9 "label" (PyStr "old") example_attach.2) in
  ∃ wa v1 wb,
    __get__ example_field (Some 1) w = (wa, Ok (GetView v1))
    ∧ __set__ example_field 2 (PyView v1) wa = (wb, Ok tt)
    ∧ attrs_of wb 1 !! col = Some (PyRef 9)
    ∧ attrs_of wb 2 !! col = Some (PyRef 9)
    ∧ column_state (set_attr 9 "label" (PyStr "new") wb) 2 col
      ≠ column_state wb 2 col.
Proof.
  intros col w. do 3 eexists.
  split; [vm_compute; reflexivity |].
  split; [vm_compute; reflexivity |].
  split; [reflexivity |]. split; [reflexivity |].
  intros Heq.
  apply (f_equal (λ s : option (pyobj * gmap string pyobj),
                    s ≫= λ p, p.2 !! "label")) in Heq.
  vm_compute in Heq. discriminate Heq.
Qed.

(** C3, as amended.  On an attached field whose sub-field names are
    ordinary, for instances [a] and [b] and a view [v1] read on [a]:
    assigning [v1] to the attribute of [b] succeeds and binds every column
    of [b] to the very value [v1] reads for that sub-field on [a] ([None]
    where [a] has no such attribute), so a reference is copied as the same
    reference; right after the assignment the views of [a] and of [b]
    answer [to_dict()] with the same dict, which is also what [v1] answered
    just before it; and when [a] and [b] are different objects, binding any
    attribute of [a] to another value afterwards leaves the attributes of
    [b], and the [to_dict()] of its view, as they were. *)
Theorem set_view_copies_columns md5 flds cls name0 w0 f cls' w1 :
  ordinary_names flds.*1 →
  contribute_to_class md5 flds cls name0 w0 = (f, cls', w1) →
  ∀ (a b : loc) (w wa : world) (v1 : MultiColumnFieldInstance),
    __get__ f (Some a) w = (wa, Ok (GetView v1)) →
    ∃ wb wb' vb d,
      __set__ f b (PyView v1) wa = (wb, Ok tt)
      ∧ (∀ n, n ∈ names f →
           attrs_of wb b !! format_field_name name0 n =
           Some (default PyNone (attrs_of wa a !! format_field_name name0 n)))
      ∧ (∀ n r, n ∈ names f →
           attrs_of wa a !! format_field_name name0 n = Some (PyRef r) →
           attrs_of wb b !! format_field_name name0 n = Some (PyRef r))
      ∧ __get__ f (Some b) wb = (wb', Ok (GetView vb))
      ∧ call_to_dict vb wb' = (wb', Ok d)
      ∧ call_to_dict v1 wb' = (wb', Ok d)
      ∧ call_to_dict v1 wa = (wa, Ok d)
      ∧ (a ≠ b → ∀ attr x,
           attrs_of (set_attr a attr x wb') b = attrs_of wb' b
           ∧ call_to_dict vb (set_attr a attr x wb')
             = (set_attr a attr x wb', Ok d)).
Proof.
  intros Hordinary Hctc a b w wa v1 Hget.
  destruct (contribute_to_class_ordinary _ _ _ _ _ _ _ _ Hordinary Hctc)
    as (Hf & Hord & _ & Hname).
  destruct (get_view_inv f a w wa v1 Hf Hord Hget) as (-> & _ & _ & _).
  destruct (set_view_spec f a b wa Hf Hord)
    as (wb & Hset & _ & Hin & _ & _ & Hsrc).
  destruct (get_spec f b wb Hf Hord) as (wb' & Hget' & Hobjs & _).
  assert (Hb : ∀ n, n ∈ names f →
    col_val wb' b (format_field_name (name f) n) =
    col_val wa a (format_field_name (name f) n)).
  { intros n Hn. rewrite (col_val_objs _ _ _ _ Hobjs).
    unfold col_val at 1. by rewrite (Hin _ Hn). }
  assert (Ha : ∀ n, col_val wb' a (format_field_name (name f) n) =
                    col_val wa a (format_field_name (name f) n)).
  { intros n. by rewrite (col_val_objs _ _ _ _ Hobjs), Hsrc. }
  destruct (to_dict_ext f b a wb' wa Hf Hord Hb) as (d & Hdb & Hda).
  destruct (to_dict_ext f a a wb' wa Hf Hord (λ n _, Ha n)) as (d' & Hda' & Hda'').
  assert (d' = d) as -> by congruence.
  exists wb, wb', (view_on f b), d. split_and!; try done.
  - intros n Hn. rewrite <- Hname. exact (Hin n Hn).
  - intros n r Hn Hr. rewrite <- Hname in Hr |- *.
    rewrite (Hin n Hn). unfold col_val. by rewrite Hr.
  - intros Hne attr x. split.
    + by apply attrs_of_set_attr_ne.
    + destruct (to_dict_ext f b b (set_attr a attr x wb') wb' Hf Hord)
        as (d2 & Hd2 & Hd2').
      { intros n _. unfold col_val. by rewrite attrs_of_set_attr_ne. }
      assert (d2 = d) as -> by congruence. done.
Qed.

Lemma set_view_copies_columns_witness :
  let wa := (__get__ example_field (Some 1)
               (set_attr 1 "price_override_obj" (PyStr "X") example_attach.2)).1 in
  let v1 := view_on example_field 1 in
  ordinary_names example_fields.*1
  ∧ __get__ example_field (Some 1)
      (set_attr 1 "price_override_obj" (PyStr "X") example_attach.2)
    = (wa, Ok (GetView v1))
  ∧ 1 ≠ 2
  ∧ ∃ wb wb', __set__ example_field 2 (PyView v1) wa = (wb, Ok tt)
          ∧ attrs_of wb 2 !! "price_override_obj" = Some (PyStr "X")
          ∧ attrs_of wb 2 !! "price_enable_override" = Some PyNone
          ∧ attrs_of (set_attr 1 "price_override_obj" (PyStr "Y") wb') 2
            = attrs_of wb' 2.
Proof.
  intros wa v1.
  assert (Hget : __get__ example_field (Some 1)
            (set_attr 1 "price_override_obj" (PyStr "X") example_attach.2)
          = (wa, Ok (GetView v1))) by reflexivity.
  assert (Hne : 1 ≠ 2) by discriminate.
  split; [exact example_fields_ordinary |].
  split; [exact Hget |]. split; [exact Hne |].
  destruct (set_view_copies_columns example_digest example_fields
              example_class "price" example_world
              example_field example_attach.1.2 example_attach.2
              example_fields_ordinary eq_refl 1 2 _ wa v1 Hget)
    as (wb & wb' & vb & d & Hset & Hcols & _ & _ & _ & _ & _ & Hlater).
  exists wb, wb'. split; [exact Hset |]. split_and!.
  - apply (Hcols "override_obj"). compute_done.
  - apply (Hcols "enable_override"). compute_done.
  - apply (Hlater Hne "price_override_obj" (PyStr "Y")).
Defined.

(** C6.  Assigning a value that is neither an instance of the field's
    generated view class nor a dict raises [TypeError] and leaves the whole
    world, so every column of every instance, as it was. *)
Theorem set_unsupported_raises_type_error (f : MultiColumnField) (i : loc)
    (value : pyobj) (w : world) :
  isinstance_instance_class f value = None →
  isinstance_dict value = None →
  __set__ f i value w = (w, Raise TypeError).
Proof. intros Hview Hdict. unfold __set__. by rewrite Hview, Hdict. Qed.

Lemma set_unsupported_raises_type_error_witness :
  isinstance_instance_class example_field (PyInt 3) = None
  ∧ isinstance_dict (PyInt 3) = None
  ∧ __set__ example_field 7 (PyInt 3) example_attach.2
    = (example_attach.2, Raise TypeError).
Proof.
  split; [reflexivity |]. split; [reflexivity |].
  apply (set_unsupported_raises_type_error example_field 7 (PyInt 3));
    reflexivity.
Defined.

(** C7.  With a sub-field called [content_type], once a view of the class
    has been built (here by a read), assigning a dict that lacks a declared
    name raises [AttributeError] from the construction of the view, before
    the subscript [value[name]] that would raise the [KeyError] is
    reached. *)
Theorem set_incomplete_mapping_raises_attribute_error :
  let d : gmap string pyobj := <["content_type" := PyInt 3]> ∅ in
  let w := (__get__ generic_field (Some 7) generic_attach.2).1 in
  (∃ n, n ∈ names generic_field ∧ d !! n = None)
  ∧ (__get__ generic_field (Some 7) generic_attach.2).2
    = Ok (GetView (view_on generic_field 7))
  ∧ __set__ generic_field 7 (PyDict d) w = (w, Raise (AttributeError "instance")).
Proof.
  intros d w. split_and!.
  - exists "object_id". split; [compute_done | reflexivity].
  - reflexivity.
  - vm_compute. reflexivity.
Qed.

(** C9.  With a sub-field called [names], [to_dict()] on a view of an
    instance that has no column for it raises [AttributeError] instead of
    answering [None]: [self.names] is the property by then, and its getter
    reads the absent column without a default. *)
Theorem to_dict_raises_on_names :
  let w := (__get__ alias_field (Some 7) alias_attach.2).1 in
  let v := view_on alias_field 7 in
  __get__ alias_field (Some 7) alias_attach.2 = (w, Ok (GetView v))
  ∧ attrs_of w 7 !! format_field_name "alias" "names" = None
  ∧ call_to_dict v w = (w, Raise (AttributeError "alias_names")).
Proof. intros w v. split_and!; vm_compute; reflexivity. Qed.

(** C10.  With a sub-field called [content_type], assigning a view raises
    [AttributeError] from the construction of the target view, although the
    only thing amiss with the source is a sub-field it has no value for. *)
Theorem set_view_raises_on_content_type :
  let wa := (__get__ generic_field (Some 1) generic_attach.2).1 in
  let v1 := view_on generic_field 1 in
  __get__ generic_field (Some 1) generic_attach.2 = (wa, Ok (GetView v1))
  ∧ view_getattr v1 "object_id" wa = (wa, Raise (AttributeError "target_object_id"))
  ∧ __set__ generic_field 2 (PyView v1) wa = (wa, Raise (AttributeError "instance")).
Proof. intros wa v1. split_and!; vm_compute; reflexivity. Qed.

(** ** The admin mixin *)

(** C4.  When the object's [<field_name>_enable_override] attribute is
    [False], [save_model] sets [<field_name>_override_obj] to [None],
    whatever it held, and only then calls [obj.save()], for any request,
    form and change flag and whatever the host's save does; with a save
    that writes the object's attributes to its row, the hook returns
    normally and the persisted [override_obj] is [None]. *)
Theorem save_model_nulls_disabled_override {Request Form : Type}
    (save : loc → M unit) (field_name : string) (request : Request)
    (obj : loc) (form : Form) (change : bool) (w : world) :
  attrs_of w obj !! (field_name +:+ "_enable_override") = Some (PyBool false) →
  let w1 := set_attr obj (field_name +:+ "_override_obj") PyNone w in
  save_model save field_name request obj form change w = save obj w1
  ∧ attrs_of w1 obj !! (field_name +:+ "_override_obj") = Some PyNone
  ∧ ∃ w', save_model Model_save field_name request obj form change w = (w', Ok tt)
          ∧ db w' !! obj ≫= (.!! (field_name +:+ "_override_obj")) = Some PyNone.
Proof.
  intros Hflag w1.
  assert (Hrun : ∀ sv : loc → M unit,
            save_model sv field_name request obj form change w = sv obj w1).
  { intros sv. unfold save_model.
    rewrite (bind_run _ _ w w (PyBool false)).
    2: { unfold getattr. by rewrite Hflag. }
    cbn [truthy negb]. by rewrite (bind_run _ _ w w1 tt). }
  assert (Hnull : attrs_of w1 obj !! (field_name +:+ "_override_obj") = Some PyNone).
  { unfold w1. by rewrite attrs_of_set_attr_eq, lookup_insert_eq. }
  split_and!; [apply Hrun | exact Hnull |].
  eexists. split; [rewrite Hrun; reflexivity |].
  cbn [db]. rewrite lookup_insert_eq. exact Hnull.
Qed.

Lemma save_model_nulls_disabled_override_witness :
  let w := set_attr 3 "price_override_obj" (PyStr "X")
             (set_attr 3 "price_enable_override" (PyBool false) example_world) in
  attrs_of w 3 !! ("price" +:+ "_enable_override") = Some (PyBool false)
  ∧ attrs_of w 3 !! "price_override_obj" = Some (PyStr "X")
  ∧ ∃ w', save_model Model_save "price" tt 3 tt true w = (w', Ok tt)
          ∧ db w' !! 3 ≫= (.!! ("price" +:+ "_override_obj")) = Some PyNone.
Proof.
  intros w.
  assert (Hflag : attrs_of w 3 !! ("price" +:+ "_enable_override")
                  = Some (PyBool false)) by reflexivity.
  split; [exact Hflag |]. split; [reflexivity |].
  exact (proj2 (proj2 (save_model_nulls_disabled_override
                         Model_save "price" tt 3 tt true w Hflag))).
Defined.

(** C8.  When the object's [<field_name>_enable_override] attribute is
    [True], [save_model] calls [obj.save()] in the very world it was
    entered in: no attribute of the object, [override_obj] included, nor
    anything else has been written.  The request, the form and the change
    flag do not enter the result. *)
Theorem save_model_enabled_leaves_object {Request Form : Type}
    (save : loc → M unit) (field_name : string) (request : Request)
    (obj : loc) (form : Form) (change : bool) (w : world) :
  attrs_of w obj !! (field_name +:+ "_enable_override") = Some (PyBool true) →
  save_model save field_name request obj form change w = save obj w
  ∧ ∀ (request' : Request) (form' : Form) (change' : bool),
      save_model save field_name request' obj form' change' w =
      save_model save field_name request obj form change w.
Proof.
  intros Hflag. split; [| reflexivity].
  unfold save_model. rewrite (bind_run _ _ w w (PyBool true)).
  2: { unfold getattr. by rewrite Hflag. }
  cbn [truthy negb]. by rewrite (bind_run _ _ w w tt).
Qed.

Lemma save_model_enabled_leaves_object_witness :
  let w := set_attr 3 "price_override_obj" (PyStr "X")
             (set_attr 3 "price_enable_override" (PyBool true) example_world) in
  attrs_of w 3 !! ("price" +:+ "_enable_override") = Some (PyBool true)
  ∧ save_model Model_save "price" tt 3 tt false w = Model_save 3 w.
Proof.
  intros w.
  assert (Hflag : attrs_of w 3 !! ("price" +:+ "_enable_override")
                  = Some (PyBool true)) by reflexivity.
  split; [exact Hflag |].
  exact (proj1 (save_model_enabled_leaves_object
                  Model_save "price" tt 3 tt false w Hflag)).
Defined.

(** ** Construction *)

Lemma init_class_fields_accepted cf kw :
  fields_truthy cf = true → kw_fields kw = None →
  MultiColumnField_init (Some cf) kw = Ok (cf, kw).
Proof.
  intros H Hkw. unfold MultiColumnField_init, Field_init. rewrite H. cbn.
  by rewrite H, Hkw.
Qed.

Lemma init_keyword_fields_accepted cf kw :
  fields_truthy cf = false →
  fields_truthy (default FieldsNone (kw_fields kw)) = true →
  MultiColumnField_init (Some cf) kw = Ok (pop_fields kw).
Proof.
  intros Hcf Hkw. unfold MultiColumnField_init. rewrite Hcf. cbn.
  by rewrite Hkw.
Qed.

(** C5.  On a class that declares no [fields] attribute at all, the
    constructor raises [AttributeError] at its first line,
    [if not self.fields], whatever the keyword arguments are: a mapping
    passed as the [fields] argument is not accepted, and without one the
    error is not the one the [raise] statement is written for.  The two
    lemmas above cover the classes that do declare one. *)
Theorem init_without_class_fields_raises_attribute_error :
  MultiColumnField_init None
    {| kw_fields := Some (FieldsDict example_fields); kw_rest := ∅ |}
    = Raise (AttributeError "fields")
  ∧ ∀ kw, MultiColumnField_init None kw = Raise (AttributeError "fields").
Proof. split; [reflexivity | intros kw; reflexivity]. Qed.

(** * Further properties of the code *)

(** ** Construction and class attachment *)

(** X2.  On a class that declares [fields], when both the class-level value
    and the [fields] argument are absent, [None] or empty, the constructor
    raises [NameError]: the [raise] statement names [ValidationError], which
    fields.py never imports. *)
Theorem init_no_mapping_raises_name_error c kw :
  fields_truthy c = false →
  fields_truthy (default FieldsNone (kw_fields kw)) = false →
  MultiColumnField_init (Some c) kw = Raise (NameError "ValidationError").
Proof.
  intros Hcf Hkw. unfold MultiColumnField_init. rewrite Hcf. cbn.
  by rewrite Hkw.
Qed.

Lemma init_no_mapping_raises_name_error_witness :
  MultiColumnField_init (Some FieldsNone)
    {| kw_fields := Some (FieldsDict []); kw_rest := ∅ |}
  = Raise (NameError "ValidationError").
Proof.
  apply (init_no_mapping_raises_name_error FieldsNone
           {| kw_fields := Some (FieldsDict []); kw_rest := ∅ |});
    reflexivity.
Defined.

(** X18.  On a class whose class-level [fields] is a non-empty mapping, a
    [fields] keyword argument is never popped and reaches
    [super().__init__], which refuses it with [TypeError]: the two channels
    cannot be used together. *)
Theorem init_both_channels_raises_type_error c kw v :
  fields_truthy c = true → kw_fields kw = Some v →
  MultiColumnField_init (Some c) kw = Raise TypeError.
Proof.
  intros Hcf Hkw. unfold MultiColumnField_init, Field_init. rewrite Hcf. cbn.
  by rewrite Hcf, Hkw.
Qed.

Lemma init_both_channels_raises_type_error_witness :
  MultiColumnField_init (Some (FieldsDict example_fields))
    {| kw_fields := Some (FieldsDict example_fields); kw_rest := ∅ |}
  = Raise TypeError.
Proof.
  apply (init_both_channels_raises_type_error (FieldsDict example_fields)
           {| kw_fields := Some (FieldsDict example_fields); kw_rest := ∅ |}
           (FieldsDict example_fields)); reflexivity.
Defined.

(** X3.  Class attachment builds a class that did not exist before and has
    no properties yet; it leaves every model instance, every persisted row
    and every class generated earlier as they were, and on the owning class
    it replaces only the attribute the field is attached under. *)
Theorem contribute_to_class_generates_fresh_class md5 flds cls name0 w f cls' w' :
  contribute_to_class md5 flds cls name0 w = (f, cls', w') →
  classes w !! instance_class f = None
  ∧ classes w' = <[instance_class f := ∅]> (classes w)
  ∧ objs w' = objs w ∧ db w' = db w
  ∧ ∀ attr, attr ≠ name0 → class_attrs cls' !! attr = class_attrs cls !! attr.
Proof.
  unfold contribute_to_class. rewrite register_columns_spec.
  cbn -[format_field_name]. intros [= <- <- <-]. cbn. split_and!; try done.
  - apply not_elem_of_dom, is_fresh.
  - intros attr Hne. by rewrite lookup_insert_ne.
Qed.

Lemma contribute_to_class_generates_fresh_class_witness :
  classes example_world !! instance_class example_field = None
  ∧ classes example_attach.2 = <[instance_class example_field := ∅]> (classes example_world).
Proof.
  destruct (contribute_to_class_generates_fresh_class example_digest
              example_fields example_class "price" example_world
              example_field example_attach.1.2 example_attach.2 eq_refl)
    as (Hnew & Hcls & _).
  by split.
Defined.

(** X4.  Two attached fields never share a generated class, so a view read
    through one of them is refused by the other with [TypeError] and
    without any write, whatever their sub-field names are. *)
Theorem set_view_of_other_field_raises md5 flds1 cls name1 w0 f1 cls1 w1
    md5' flds2 cls2 name2 w f2 cls2' w2 :
  contribute_to_class md5 flds1 cls name1 w0 = (f1, cls1, w1) →
  is_Some (classes w !! instance_class f1) →
  contribute_to_class md5' flds2 cls2 name2 w = (f2, cls2', w2) →
  instance_class f1 ≠ instance_class f2
  ∧ ∀ (a b : loc) (wr wa : world) (v1 : MultiColumnFieldInstance),
      __get__ f1 (Some a) wr = (wa, Ok (GetView v1)) →
      ∀ now, __set__ f2 b (PyView v1) now = (now, Raise TypeError).
Proof.
  intros Hc1 Hlive Hc2.
  assert (Hne : instance_class f1 ≠ instance_class f2).
  { intros Heq. rewrite Heq in Hlive. revert Hc2 Hlive.
    unfold contribute_to_class. rewrite register_columns_spec.
    cbn -[format_field_name]. intros [= <- _ _]. cbn.
    intros Hsome. apply elem_of_dom in Hsome. by apply is_fresh in Hsome. }
  split; [done |]. intros a b wr wa v1 Hget now.
  unfold __set__, isinstance_instance_class.
  rewrite (get_view_class _ _ _ _ _ Hget). by rewrite decide_False.
Qed.

Lemma set_view_of_other_field_raises_witness :
  let second := contribute_to_class example_digest example_fields
                  example_attach.1.2 "cost" example_attach.2 in
  is_Some (classes example_attach.2 !! instance_class example_field)
  ∧ __set__ second.1.1 2 (PyView (view_on example_field 1)) second.2
    = (second.2, Raise TypeError).
Proof.
  intros second.
  assert (Hlive : is_Some (classes example_attach.2 !! instance_class example_field)).
  { exists ∅. reflexivity. }
  split; [exact Hlive |].
  destruct (set_view_of_other_field_raises example_digest example_fields
              example_class "price" example_world
              example_field example_attach.1.2 example_attach.2
              example_digest example_fields example_attach.1.2 "cost"
              example_attach.2 second.1.1 second.1.2 second.2
              eq_refl Hlive eq_refl) as [_ Hset].
  exact (Hset 1 2 example_attach.2 _ _ eq_refl second.2).
Defined.

(** ** Assignment: what is written and what is not *)

Lemma for_each_app {A} (l1 l2 : list A) (body : A → M unit) w :
  for_each (l1 ++ l2) body w = (_ <~ for_each l1 body ;; for_each l2 body) w.
Proof.
  revert w. induction l1 as [|x l1 IH]; intros w.
  - reflexivity.
  - cbn [app]. rewrite for_each_cons. unfold bind.
    rewrite for_each_cons. unfold bind.
    destruct (body x w) as [w1 [[]|e]]; [| done].
    rewrite IH. reflexivity.
Qed.

Lemma view_instance_pure self w : ∃ o, view_instance self w = (w, o).
Proof.
  unfold view_instance. destruct (class_property w self "instance"); [by eauto |].
  destruct (own_instance self); eauto.
Qed.

Lemma view_getattr_pure src n w : ∃ o, view_getattr src n w = (w, o).
Proof.
  unfold view_getattr. destruct (class_property w src n) as [p|].
  - unfold property_get, bind.
    destruct (view_instance_pure src w) as [[i|e] ->]; [| by eauto].
    unfold attr_name. destruct p; unfold raise, ret; try by eauto.
    unfold getattr. destruct (attrs_of w i !! s); eauto.
  - destruct (view_own src n); eauto.
Qed.

Lemma view_getattr_default_pure src n dflt w :
  ∃ o, view_getattr_default src n dflt w = (w, o).
Proof.
  unfold view_getattr_default.
  destruct (view_getattr_pure src n w) as [[x|e] ->]; [by eauto |].
  destruct e; eauto.
Qed.

Lemma dict_getitem_pure {V} (d : gmap string V) n w : ∃ o, dict_getitem d n w = (w, o).
Proof. unfold dict_getitem. destruct (d !! n); eauto. Qed.

(** Whatever the loop of [__set__] does and however it ends, it writes
    nothing but the columns of the names it runs over, on the instance of
    the target view. *)
Lemma write_loop_frame f b (rd : string → M pyobj) ns w w' r :
  ordinary_names (names f) →
  (∀ n, n ∈ ns → n ∈ names f) →
  (∀ n w0, ∃ o, rd n w0 = (w0, o)) →
  (∀ n, n ∈ ns → class_props w (instance_class f) !! n
                 = Some (PyStr (format_field_name (name f) n))) →
  for_each ns (λ name, x <~ rd name ;; view_setattr (view_on f b) name x) w = (w', r) →
  classes w' = classes w ∧ db w' = db w
  ∧ (∀ c, (∀ n, n ∈ ns → c ≠ format_field_name (name f) n) →
          attrs_of w' b !! c = attrs_of w b !! c)
  ∧ (∀ o, o ≠ b → attrs_of w' o = attrs_of w o).
Proof.
  intros Hord Hsub Hpure. revert w Hsub.
  induction ns as [|n0 ns IH]; intros w Hsub Hprops Hrun.
  - rewrite for_each_nil in Hrun. by injection Hrun as <- <-.
  - rewrite for_each_cons in Hrun.
    assert (Hn0 : n0 ∈ n0 :: ns) by (apply elem_of_cons; by left).
    assert (Hp0 : class_props w (instance_class f) !! n0
                  = Some (PyStr (format_field_name (name f) n0)))
      by by apply Hprops.
    destruct (Hpure n0 w) as [[x|e] Hrd].
    + set (w1 := set_attr b (format_field_name (name f) n0) x w).
      rewrite (bind_run _ _ w w1 tt) in Hrun.
      2: { rewrite (bind_run _ _ _ _ _ Hrd).
           apply view_setattr_spec; [done | by apply Hsub | done]. }
      destruct (IH w1) as (Hcls & Hdb & Hout & Hoth); [| | exact Hrun |].
      { intros n Hn. apply Hsub, elem_of_cons. by right. }
      { intros n Hn. unfold w1. rewrite class_props_set_attr.
        apply Hprops, elem_of_cons. by right. }
      split_and!; try done.
      * intros c Hc. rewrite Hout.
        -- unfold w1. rewrite attrs_of_set_attr_eq, lookup_insert_ne; [done |].
           intros <-. by apply (Hc n0).
        -- intros n Hn. apply Hc, elem_of_cons. by right.
      * intros o Ho. rewrite (Hoth _ Ho). unfold w1.
        by rewrite attrs_of_set_attr_ne.
    + rewrite (bind_raise _ _ w w e) in Hrun.
      2: { by apply bind_raise. }
      by injection Hrun as <- <-.
Qed.

(** X22.  With a sub-field called [field], an assignment can write an
    attribute that is no column of the field.  The first view of the class
    installs the property [field] and from then on reads [self.field]
    through it, so from the instance's column [link_field]; when that
    column holds another field, the property of the next name is bound to
    that other field's column, and the assignment writes it. *)
Lemma set_shadowed_field_writes_foreign_column :
  let w := set_attr 7 "link_field" (PyField example_field) shadow_attach.2 in
  let d : gmap string pyobj :=
    <["field" := PyStr "F"]> (<["override_obj" := PyStr "X"]> ∅) in
  ∃ w', __set__ shadow_field 7 (PyDict d) w = (w', Ok tt)
        ∧ (∀ n, n ∈ names shadow_field →
                "price_override_obj" ≠ format_field_name "link" n)
        ∧ attrs_of w 7 !! "price_override_obj" = None
        ∧ attrs_of w' 7 !! "price_override_obj" = Some (PyStr "X").
Proof.
  intros w d. eexists. split; [vm_compute; reflexivity |]. split_and!.
  - intros n Hn. change (n ∈ ["field"; "override_obj"]) in Hn.
    apply elem_of_cons in Hn as [->|Hn]; [discriminate |].
    apply list_elem_of_singleton in Hn as ->. discriminate.
  - reflexivity.
  - reflexivity.
Qed.

(** X5.  On a field whose sub-field names are ordinary, however an
    assignment ends (normally, with [KeyError] or with [TypeError]), it has
    written nothing but the field's own columns on the instance assigned
    to: every other attribute of that instance, every other instance and
    every persisted row are as before. *)
Theorem set_writes_only_own_columns md5 flds cls name0 w0 f cls' w1 :
  ordinary_names flds.*1 →
  contribute_to_class md5 flds cls name0 w0 = (f, cls', w1) →
  ∀ (b : loc) (value : pyobj) (w w' : world) (r : outcome unit),
    __set__ f b value w = (w', r) →
    db w' = db w
    ∧ (∀ o, o ≠ b → attrs_of w' o = attrs_of w o)
    ∧ (∀ attr, (∀ n, n ∈ names f → attr ≠ format_field_name name0 n) →
               attrs_of w' b !! attr = attrs_of w b !! attr).
Proof.
  intros Hordinary Hctc b value w w' r Hrun.
  destruct (contribute_to_class_ordinary _ _ _ _ _ _ _ _ Hordinary Hctc)
    as (Hf & Hord & _ & Hname).
  destruct (MultiColumnFieldInstance_init_spec f b w Hf Hord)
    as (wi & Hinit & Hobjs & Hdb & Hprops).
  assert (Hloop : ∀ rd : string → M pyobj,
    (∀ n w0, ∃ o, rd n w0 = (w0, o)) →
    (temp <~ MultiColumnFieldInstance_init f b f ;;
     for_each (names f) (λ name, x <~ rd name ;; view_setattr temp name x)) w
      = (w', r) →
    db w' = db w
    ∧ (∀ o, o ≠ b → attrs_of w' o = attrs_of w o)
    ∧ (∀ attr, (∀ n, n ∈ names f → attr ≠ format_field_name name0 n) →
               attrs_of w' b !! attr = attrs_of w b !! attr)).
  { intros rd Hpure Hrd. rewrite (bind_run _ _ _ _ _ Hinit) in Hrd.
    destruct (write_loop_frame f b rd (names f) wi w' r Hord
                (λ _ H, H) Hpure Hprops Hrd) as (_ & Hdb' & Hout & Hoth).
    split_and!.
    - congruence.
    - intros o Ho. by rewrite (Hoth _ Ho), (attrs_of_objs _ _ _ Hobjs).
    - intros attr Hattr. rewrite Hout, (attrs_of_objs _ _ _ Hobjs); [done |].
      by rewrite Hname. }
  revert Hrun. unfold __set__.
  destruct (isinstance_instance_class f value) as [src|].
  - apply Hloop. intros n w2. apply view_getattr_default_pure.
  - destruct (isinstance_dict value) as [d|].
    + apply Hloop. intros n w2. apply dict_getitem_pure.
    + by intros [= <- <-].
Qed.

Lemma set_writes_only_own_columns_witness :
  let w := set_attr 7 "title" (PyStr "T") example_attach.2 in
  let run := __set__ example_field 7
               (PyDict (<["enable_override" := PyBool true]> ∅)) w in
  ordinary_names example_fields.*1
  ∧ run.2 = Raise (KeyError "override_obj")
  ∧ attrs_of run.1 7 !! "title" = Some (PyStr "T").
Proof.
  intros w run. split; [exact example_fields_ordinary |].
  split; [reflexivity |].
  destruct (set_writes_only_own_columns example_digest example_fields
              example_class "price" example_world
              example_field example_attach.1.2 example_attach.2
              example_fields_ordinary eq_refl
              7 (PyDict (<["enable_override" := PyBool true]> ∅)) w run.1 run.2
              (surjective_pairing run)) as (_ & _ & Hattr).
  rewrite (Hattr "title"); [reflexivity |].
  intros n Hn Heq.
  change (n ∈ ["enable_override"; "override_obj"]) in Hn.
  apply elem_of_cons in Hn as [->|Hn]; [discriminate Heq |].
  apply elem_of_cons in Hn as [->|Hn]; [discriminate Heq |].
  by apply elem_of_nil in Hn.
Defined.

(** X6.  On a field whose sub-field names are ordinary, when the dict
    assigned has every declared name up to some name [k] and lacks [k], the
    assignment raises [KeyError k] after having written the columns of the
    names before [k], each with the dict's value; the column of [k] and
    those of the names after it are not written (unless a name occurs
    twice), nor is any other attribute. *)
Theorem set_mapping_partial_write md5 flds cls name0 w0 f cls' w1 :
  ordinary_names flds.*1 →
  contribute_to_class md5 flds cls name0 w0 = (f, cls', w1) →
  ∀ (i : loc) (d : gmap string pyobj) (w : world) (pre post : list string)
    (k : string),
    names f = pre ++ k :: post →
    (∀ n, n ∈ pre → is_Some (d !! n)) →
    d !! k = None →
    ∃ w', __set__ f i (PyDict d) w = (w', Raise (KeyError k))
          ∧ (∀ n, n ∈ pre → attrs_of w' i !! format_field_name name0 n = d !! n)
          ∧ (∀ attr, (∀ n, n ∈ pre → attr ≠ format_field_name name0 n) →
                     attrs_of w' i !! attr = attrs_of w i !! attr).
Proof.
  intros Hordinary Hctc i d w pre post k Hnames Hpre Hk.
  destruct (contribute_to_class_ordinary _ _ _ _ _ _ _ _ Hordinary Hctc)
    as (Hf & Hord & _ & Hname).
  destruct (MultiColumnFieldInstance_init_spec f i w Hf Hord)
    as (wi & Hinit & Hobjs & Hdb & Hprops).
  assert (Hsub : ∀ n, n ∈ pre → n ∈ names f).
  { intros n Hn. rewrite Hnames, elem_of_app. by left. }
  destruct (write_loop f i (dict_getitem d)
              (λ _ n, default PyNone (d !! n)) pre wi)
    as (w' & Hrun & _ & _ & Hin & Hout & _); try done.
  { intros n w2 Hn _. unfold dict_getitem. by destruct (Hpre _ Hn) as [x ->]. }
  { intros n Hn. by apply Hprops, Hsub. }
  rewrite Hname in Hin, Hout.
  exists w'. split_and!.
  - unfold __set__. cbn [isinstance_instance_class isinstance_dict].
    rewrite (bind_run _ _ _ _ _ Hinit), Hnames, for_each_app.
    rewrite (bind_run _ _ _ _ _ Hrun), for_each_cons.
    apply bind_raise, bind_raise. unfold dict_getitem. by rewrite Hk.
  - intros n Hn. rewrite (Hin _ Hn). by destruct (Hpre _ Hn) as [x ->].
  - intros attr Hattr. by rewrite (Hout _ Hattr), (attrs_of_objs _ _ _ Hobjs).
Qed.

Lemma set_mapping_partial_write_witness :
  let d : gmap string pyobj := <["enable_override" := PyBool true]> ∅ in
  ordinary_names example_fields.*1
  ∧ names example_field = ["enable_override"] ++ "override_obj" :: []
  ∧ ∃ w', __set__ example_field 7 (PyDict d) example_attach.2
          = (w', Raise (KeyError "override_obj"))
          ∧ attrs_of w' 7 !! "price_enable_override" = Some (PyBool true)
          ∧ attrs_of w' 7 !! "price_override_obj" = None.
Proof.
  intros d.
  assert (Hnames : names example_field = ["enable_override"] ++ "override_obj" :: [])
    by reflexivity.
  assert (Hpre : ∀ n, n ∈ ["enable_override"] → is_Some (d !! n)).
  { intros n Hn. apply list_elem_of_singleton in Hn as ->. by exists (PyBool true). }
  split; [exact example_fields_ordinary |]. split; [exact Hnames |].
  destruct (set_mapping_partial_write example_digest example_fields
              example_class "price" example_world
              example_field example_attach.1.2 example_attach.2
              example_fields_ordinary eq_refl
              7 d example_attach.2 ["enable_override"] [] "override_obj"
              Hnames Hpre eq_refl) as (w' & Hset & Hin & Hout).
  exists w'. split; [exact Hset |]. split.
  - apply (Hin "enable_override"), list_elem_of_singleton. reflexivity.
  - rewrite (Hout "price_override_obj"); [reflexivity |].
    intros n Hn. apply list_elem_of_singleton in Hn as ->. discriminate.
Defined.

(** X7.  On a field whose sub-field names are ordinary, a dict that has
    every declared name is accepted whatever else it holds: its other keys
    are not looked at, and the view read afterwards answers [to_dict()]
    with the dict cut down to the declared names. *)
Theorem set_mapping_ignores_extra_keys md5 flds cls name0 w0 f cls' w1 :
  ordinary_names flds.*1 →
  contribute_to_class md5 flds cls name0 w0 = (f, cls', w1) →
  ∀ (i : loc) (d : gmap string pyobj) (w : world),
    (∀ n, n ∈ names f → is_Some (d !! n)) →
    ∃ w' w'' v d',
      __set__ f i (PyDict d) w = (w', Ok tt)
      ∧ __get__ f (Some i) w' = (w'', Ok (GetView v))
      ∧ call_to_dict v w'' = (w'', Ok d')
      ∧ ∀ n, d' !! n = if decide (n ∈ names f) then d !! n else None.
Proof.
  intros Hordinary Hctc i d w Hkeys.
  destruct (contribute_to_class_ordinary _ _ _ _ _ _ _ _ Hordinary Hctc)
    as (Hf & Hord & _ & _).
  destruct (set_dict_spec f i d w Hf Hord Hkeys) as (w' & Hset & _ & Hin & _).
  destruct (get_spec f i w' Hf Hord) as (w'' & Hget & Hobjs & _).
  destruct (to_dict_spec f i w'' Hf Hord) as (d' & _ & Hrun & Hd').
  exists w', w'', (view_on f i), d'. split_and!; try done.
  intros n. rewrite Hd'. destruct (decide (n ∈ names f)) as [Hn|Hn]; [| done].
  unfold col_val. rewrite (attrs_of_objs _ _ _ Hobjs), (Hin _ Hn).
  by destruct (Hkeys _ Hn) as [x ->].
Qed.

Lemma set_mapping_ignores_extra_keys_witness :
  let d : gmap string pyobj := <["comment" := PyStr "c"]> (override_dict true (PyStr "X")) in
  ordinary_names example_fields.*1
  ∧ (∀ n, n ∈ names example_field → is_Some (d !! n))
  ∧ ∃ w' w'' v d',
      __set__ example_field 7 (PyDict d) example_attach.2 = (w', Ok tt)
      ∧ __get__ example_field (Some 7) w' = (w'', Ok (GetView v))
      ∧ call_to_dict v w'' = (w'', Ok d')
      ∧ d' !! "comment" = None ∧ d' !! "override_obj" = Some (PyStr "X").
Proof.
  intros d.
  assert (Hkeys : ∀ n, n ∈ names example_field → is_Some (d !! n)).
  { intros n Hn. change (n ∈ ["enable_override"; "override_obj"]) in Hn.
    apply elem_of_cons in Hn as [->|Hn]; [by exists (PyBool true) |].
    apply list_elem_of_singleton in Hn as ->. by exists (PyStr "X"). }
  split; [exact example_fields_ordinary |]. split; [exact Hkeys |].
  destruct (set_mapping_ignores_extra_keys example_digest example_fields
              example_class "price" example_world
              example_field example_attach.1.2 example_attach.2
              example_fields_ordinary eq_refl
              7 d example_attach.2 Hkeys)
    as (w' & w'' & v & d' & Hset & Hget & Hdict & Hd').
  exists w', w'', v, d'.
  split_and!; [exact Hset | exact Hget | exact Hdict
              | exact (Hd' "comment") | exact (Hd' "override_obj")].
Defined.

(** X19.  On a field whose sub-field names are ordinary, for every instance
    and every dict whose keys are exactly the declared names: assigning the
    dict succeeds, the view read afterwards answers [to_dict()] with a dict
    equal to the one assigned and reads each sub-field as the value
    assigned to it; and in any later world that view's [to_dict()] gives
    the values the columns have in that world, not those it saw first. *)
Theorem set_mapping_then_to_dict md5 flds cls name0 w0 f cls' w1 :
  ordinary_names flds.*1 →
  contribute_to_class md5 flds cls name0 w0 = (f, cls', w1) →
  ∀ (i : loc) (d : gmap string pyobj) (w : world),
    dom d = list_to_set (names f) →
    ∃ w' w'' v,
      __set__ f i (PyDict d) w = (w', Ok tt)
      ∧ __get__ f (Some i) w' = (w'', Ok (GetView v))
      ∧ call_to_dict v w'' = (w'', Ok d)
      ∧ (∀ n x, d !! n = Some x → view_getattr v n w'' = (w'', Ok x))
      ∧ ∀ later, ∃ d',
          call_to_dict v later = (later, Ok d')
          ∧ ∀ n, n ∈ names f →
              d' !! n = Some (default PyNone
                                (attrs_of later i !! format_field_name name0 n)).
Proof.
  intros Hordinary Hctc i d w Hdom.
  destruct (contribute_to_class_ordinary _ _ _ _ _ _ _ _ Hordinary Hctc)
    as (Hf & Hord & _ & Hname).
  assert (Hkeys : ∀ n, n ∈ names f ↔ is_Some (d !! n)).
  { intros n. rewrite <- elem_of_dom, Hdom. by rewrite elem_of_list_to_set. }
  destruct (set_dict_spec f i d w Hf Hord (λ n Hn, proj1 (Hkeys n) Hn))
    as (w' & Hset & _ & Hin & _).
  destruct (get_spec f i w' Hf Hord) as (w'' & Hget & Hobjs & _ & Hprops).
  destruct (to_dict_spec f i w'' Hf Hord) as (d' & _ & Hrun & Hd').
  assert (d' = d) as ->.
  { apply map_eq. intros n. rewrite Hd'.
    destruct (decide (n ∈ names f)) as [Hn|Hn].
    - unfold col_val. rewrite (attrs_of_objs _ _ _ Hobjs), (Hin _ Hn).
      by destruct (proj1 (Hkeys n) Hn) as [x ->].
    - destruct (d !! n) eqn:Hdn; [| done].
      exfalso. apply Hn, Hkeys. by rewrite Hdn. }
  exists w', w'', (view_on f i). split_and!; try done.
  - intros n x Hx.
    assert (Hn : n ∈ names f) by (apply Hkeys; by rewrite Hx).
    unfold view_getattr. rewrite class_property_declared by done.
    change (view_class (view_on f i)) with (instance_class f).
    rewrite (Hprops _ Hn). unfold property_get.
    rewrite (bind_run _ _ _ _ _ (view_instance_spec f i w'' Hord)).
    cbn [attr_name]. unfold bind, ret, getattr.
    by rewrite (attrs_of_objs _ _ _ Hobjs), (Hin _ Hn), Hx.
  - intros later. destruct (to_dict_spec f i later Hf Hord) as (dl & _ & Hl & Hdl).
    exists dl. split; [done |]. intros n Hn.
    by rewrite Hdl, decide_True, Hname by done.
Qed.

Lemma set_mapping_then_to_dict_witness :
  let d := override_dict true (PyStr "X") in
  ordinary_names example_fields.*1
  ∧ dom d = list_to_set (names example_field)
  ∧ ∃ w' w'' v,
      __set__ example_field 7 (PyDict d) example_attach.2 = (w', Ok tt)
      ∧ __get__ example_field (Some 7) w' = (w'', Ok (GetView v))
      ∧ call_to_dict v w'' = (w'', Ok d)
      ∧ view_getattr v "override_obj" w'' = (w'', Ok (PyStr "X")).
Proof.
  intros d.
  assert (Hdom : dom d = list_to_set (names example_field)) by reflexivity.
  split; [exact example_fields_ordinary |]. split; [exact Hdom |].
  destruct (set_mapping_then_to_dict example_digest example_fields
              example_class "price" example_world
              example_field example_attach.1.2 example_attach.2
              example_fields_ordinary eq_refl 7 d example_attach.2 Hdom)
    as (w' & w'' & v & Hset & Hget & Hdict & Hread & _).
  exists w', w'', v.
  split_and!; [exact Hset | exact Hget | exact Hdict |].
  apply (Hread "override_obj"). reflexivity.
Defined.

(** ** Reading *)

(** X8.  On a field whose sub-field names are ordinary, reading the
    composite attribute of an instance always succeeds and writes no
    attribute of any instance and no row; two reads in a row give views
    whose [to_dict()] results are equal. *)
Theorem get_twice_same_to_dict md5 flds cls name0 w0 f cls' w1 :
  ordinary_names flds.*1 →
  contribute_to_class md5 flds cls name0 w0 = (f, cls', w1) →
  ∀ (i : loc) (w : world),
    ∃ wa wb va vb d,
      __get__ f (Some i) w = (wa, Ok (GetView va))
      ∧ __get__ f (Some i) wa = (wb, Ok (GetView vb))
      ∧ objs wb = objs w ∧ db wb = db w
      ∧ call_to_dict va wa = (wa, Ok d)
      ∧ call_to_dict vb wb = (wb, Ok d).
Proof.
  intros Hordinary Hctc i w.
  destruct (contribute_to_class_ordinary _ _ _ _ _ _ _ _ Hordinary Hctc)
    as (Hf & Hord & _ & _).
  destruct (get_spec f i w Hf Hord) as (wa & Hga & Hoa & Hda & _).
  destruct (get_spec f i wa Hf Hord) as (wb & Hgb & Hob & Hdb & _).
  destruct (to_dict_ext f i i wa wb Hf Hord) as (d & Hta & Htb).
  { intros n _. by rewrite (col_val_objs _ _ _ _ Hob). }
  exists wa, wb, (view_on f i), (view_on f i), d.
  split_and!; try done; congruence.
Qed.

Lemma get_twice_same_to_dict_witness :
  ordinary_names example_fields.*1
  ∧ ∃ wa wb va vb d,
    __get__ example_field (Some 7) example_attach.2 = (wa, Ok (GetView va))
    ∧ __get__ example_field (Some 7) wa = (wb, Ok (GetView vb))
    ∧ call_to_dict va wa = (wa, Ok d) ∧ call_to_dict vb wb = (wb, Ok d).
Proof.
  split; [exact example_fields_ordinary |].
  destruct (get_twice_same_to_dict example_digest example_fields
              example_class "price" example_world
              example_field example_attach.1.2 example_attach.2
              example_fields_ordinary eq_refl
              7 example_attach.2)
    as (wa & wb & va & vb & d & Hga & Hgb & _ & _ & Hta & Htb).
  exists wa, wb, va, vb, d.
  split_and!; [exact Hga | exact Hgb | exact Hta | exact Htb].
Defined.

(** X23.  With a sub-field called [field], reading is not free of writes:
    the first read of the composite attribute fails half way through
    [__init__], the class keeping the property [field]; the second read
    then stores the field object in the instance's column [link_field],
    from [self.field = field]. *)
Lemma get_shadowed_field_writes_instance :
  let r1 := __get__ shadow_field (Some 7) shadow_attach.2 in
  let r2 := __get__ shadow_field (Some 7) r1.1 in
  r1.2 = Raise (AttributeError "link_field")
  ∧ objs r1.1 = objs shadow_attach.2
  ∧ attrs_of r1.1 7 !! "link_field" = None
  ∧ (∃ v, r2.2 = Ok (GetView v))
  ∧ attrs_of r2.1 7 !! "link_field" = Some (PyField shadow_field).
Proof.
  intros r1 r2. split_and!; try reflexivity. eexists. vm_compute. reflexivity.
Qed.

(** X9.  On a field whose sub-field names are ordinary, assigning to an
    instance the view read on that same instance succeeds and keeps the
    value of every attribute the instance has; the columns of the field it
    did not have come into being with [None]. *)
Theorem set_own_view_keeps_values md5 flds cls name0 w0 f cls' w1 :
  ordinary_names flds.*1 →
  contribute_to_class md5 flds cls name0 w0 = (f, cls', w1) →
  ∀ (a : loc) (w wa : world) (v : MultiColumnFieldInstance),
    __get__ f (Some a) w = (wa, Ok (GetView v)) →
    ∃ wb, __set__ f a (PyView v) wa = (wb, Ok tt)
          ∧ (∀ attr x, attrs_of wa a !! attr = Some x →
                       attrs_of wb a !! attr = Some x)
          ∧ (∀ n, n ∈ names f →
                  attrs_of wa a !! format_field_name name0 n = None →
                  attrs_of wb a !! format_field_name name0 n = Some PyNone).
Proof.
  intros Hordinary Hctc a w wa v Hget.
  destruct (contribute_to_class_ordinary _ _ _ _ _ _ _ _ Hordinary Hctc)
    as (Hf & Hord & _ & Hname).
  destruct (get_view_inv f a w wa v Hf Hord Hget) as (-> & _).
  destruct (set_view_spec f a a wa Hf Hord)
    as (wb & Hset & _ & Hin & Hout & _).
  rewrite Hname in Hin, Hout.
  exists wb. split_and!; [done | |].
  - intros attr x Hx.
    destruct (decide (attr ∈ format_field_name name0 <$> names f)) as [Hc|Hc].
    + apply list_elem_of_fmap in Hc as (n & -> & Hn).
      rewrite (Hin _ Hn). unfold col_val. by rewrite Hx.
    + rewrite Hout; [done |]. intros n Hn ->. apply Hc.
      by apply list_elem_of_fmap_2.
  - intros n Hn Habs. rewrite (Hin _ Hn). unfold col_val. by rewrite Habs.
Qed.

Lemma set_own_view_keeps_values_witness :
  let w := set_attr 1 "price_override_obj" (PyStr "X") example_attach.2 in
  let wa := (__get__ example_field (Some 1) w).1 in
  ordinary_names example_fields.*1
  ∧ __get__ example_field (Some 1) w = (wa, Ok (GetView (view_on example_field 1)))
  ∧ ∃ wb, __set__ example_field 1 (PyView (view_on example_field 1)) wa = (wb, Ok tt)
          ∧ attrs_of wb 1 !! "price_override_obj" = Some (PyStr "X")
          ∧ attrs_of wb 1 !! "price_enable_override" = Some PyNone.
Proof.
  intros w wa.
  assert (Hget : __get__ example_field (Some 1) w
                 = (wa, Ok (GetView (view_on example_field 1)))) by reflexivity.
  split; [exact example_fields_ordinary |]. split; [exact Hget |].
  destruct (set_own_view_keeps_values example_digest example_fields
              example_class "price" example_world
              example_field example_attach.1.2 example_attach.2
              example_fields_ordinary eq_refl
              1 w wa _ Hget) as (wb & Hset & Hkeep & Hnew).
  exists wb. split_and!.
  - exact Hset.
  - apply (Hkeep "price_override_obj"). reflexivity.
  - apply (Hnew "enable_override"); [compute_done | reflexivity].
Defined.

(** X20.  On a field whose sub-field names are ordinary, [to_dict()] of a
    view never raises, in whatever world it is called: its keys are the
    declared names, a name whose column the owning instance lacks is mapped
    to [None], and a name whose column it has is mapped to the value the
    column has in that world. *)
Theorem to_dict_reads_columns_or_none md5 flds cls name0 w0 f cls' w1 :
  ordinary_names flds.*1 →
  contribute_to_class md5 flds cls name0 w0 = (f, cls', w1) →
  ∀ (i : loc) (w wv : world) (v : MultiColumnFieldInstance),
    __get__ f (Some i) w = (wv, Ok (GetView v)) →
    ∀ later, ∃ d,
      call_to_dict v later = (later, Ok d)
      ∧ dom d = list_to_set (names f)
      ∧ ∀ n, n ∈ names f →
          (attrs_of later i !! format_field_name name0 n = None →
             d !! n = Some PyNone)
          ∧ (∀ x, attrs_of later i !! format_field_name name0 n = Some x →
             d !! n = Some x).
Proof.
  intros Hordinary Hctc i w wv v Hget later.
  destruct (contribute_to_class_ordinary _ _ _ _ _ _ _ _ Hordinary Hctc)
    as (Hf & Hord & _ & Hname).
  destruct (get_view_inv f i w wv v Hf Hord Hget) as (-> & _).
  destruct (to_dict_spec f i later Hf Hord) as (d & _ & Hrun & Hd).
  exists d. split_and!; [done | |].
  - apply set_eq. intros n. rewrite elem_of_dom, elem_of_list_to_set, Hd.
    destruct (decide (n ∈ names f)); split; try done.
    all: by intros [? ?].
  - intros n Hn. rewrite Hd, decide_True, Hname by done. unfold col_val.
    split; [by intros -> | by intros x ->].
Qed.

Lemma to_dict_reads_columns_or_none_witness :
  let w := set_attr 7 "price_override_obj" (PyStr "X") example_attach.2 in
  let wv := (__get__ example_field (Some 7) w).1 in
  let v := view_on example_field 7 in
  ordinary_names example_fields.*1
  ∧ __get__ example_field (Some 7) w = (wv, Ok (GetView v))
  ∧ ∃ d, call_to_dict v wv = (wv, Ok d)
         ∧ d !! "enable_override" = Some PyNone
         ∧ d !! "override_obj" = Some (PyStr "X").
Proof.
  intros w wv v.
  assert (Hget : __get__ example_field (Some 7) w = (wv, Ok (GetView v)))
    by reflexivity.
  split; [exact example_fields_ordinary |]. split; [exact Hget |].
  destruct (to_dict_reads_columns_or_none example_digest example_fields
              example_class "price" example_world
              example_field example_attach.1.2 example_attach.2
              example_fields_ordinary eq_refl 7 w wv v Hget wv)
    as (d & Hrun & _ & Hd).
  exists d. split; [exact Hrun |]. split.
  - apply (proj1 (Hd "enable_override" ltac:(compute_done))). reflexivity.
  - apply (proj2 (Hd "override_obj" ltac:(compute_done))). reflexivity.
Defined.

(** X21.  Through the property of a view, on a field whose sub-field names
    are ordinary, writing a sub-field sets the column of the owning
    instance and nothing else of it; reading the sub-field back on the view
    gives the value written, and [to_dict()] shows it under that name with
    every other name as it was. *)
Theorem view_property_writes_through md5 flds cls name0 w0 f cls' w1 :
  ordinary_names flds.*1 →
  contribute_to_class md5 flds cls name0 w0 = (f, cls', w1) →
  ∀ (i : loc) (w wv : world) (v : MultiColumnFieldInstance) (n : string)
    (x : pyobj),
    __get__ f (Some i) w = (wv, Ok (GetView v)) →
    n ∈ names f →
    ∃ w', view_setattr v n x wv = (w', Ok tt)
          ∧ attrs_of w' i = <[format_field_name name0 n := x]> (attrs_of wv i)
          ∧ (∀ o, o ≠ i → attrs_of w' o = attrs_of wv o)
          ∧ view_getattr v n w' = (w', Ok x)
          ∧ ∃ d, call_to_dict v w' = (w', Ok d)
                 ∧ d !! n = Some x
                 ∧ ∀ m, m ∈ names f → m ≠ n →
                     d !! m = Some (default PyNone
                                      (attrs_of wv i !! format_field_name name0 m)).
Proof.
  intros Hordinary Hctc i w wv v n x Hget Hn.
  destruct (contribute_to_class_ordinary _ _ _ _ _ _ _ _ Hordinary Hctc)
    as (Hf & Hord & _ & Hname).
  destruct (get_view_inv f i w wv v Hf Hord Hget) as (-> & _ & _ & Hprops).
  rewrite Hname in Hprops.
  set (w' := set_attr i (format_field_name name0 n) x wv).
  assert (Hattrs : attrs_of w' i = <[format_field_name name0 n := x]> (attrs_of wv i))
    by apply attrs_of_set_attr_eq.
  destruct (to_dict_spec f i w' Hf Hord) as (d & _ & Hrun & Hd).
  exists w'. split_and!.
  - apply view_setattr_spec; [done | done |]. by apply Hprops.
  - exact Hattrs.
  - intros o Ho. by apply attrs_of_set_attr_ne.
  - unfold view_getattr. rewrite class_property_declared by done.
    change (view_class (view_on f i)) with (instance_class f).
    unfold w'. rewrite class_props_set_attr, (Hprops _ Hn).
    unfold property_get.
    rewrite (bind_run _ _ _ _ _ (view_instance_spec f i _ Hord)).
    cbn [attr_name]. unfold bind, ret, getattr.
    fold w'. by rewrite Hattrs, lookup_insert_eq.
  - exists d. split_and!; [done | |].
    + rewrite Hd, decide_True by done. unfold col_val.
      by rewrite Hname, Hattrs, lookup_insert_eq.
    + intros m Hm Hne. rewrite Hd, decide_True by done. unfold col_val.
      rewrite Hname, Hattrs, lookup_insert_ne; [done |].
      intros Heq. by apply format_field_name_inj in Heq.
Qed.

Lemma view_property_writes_through_witness :
  let wv := (__get__ example_field (Some 7) example_attach.2).1 in
  let v := view_on example_field 7 in
  ordinary_names example_fields.*1
  ∧ __get__ example_field (Some 7) example_attach.2 = (wv, Ok (GetView v))
  ∧ "override_obj" ∈ names example_field
  ∧ ∃ w', view_setattr v "override_obj" (PyStr "X") wv = (w', Ok tt)
          ∧ view_getattr v "override_obj" w' = (w', Ok (PyStr "X")).
Proof.
  intros wv v.
  assert (Hget : __get__ example_field (Some 7) example_attach.2
                 = (wv, Ok (GetView v))) by reflexivity.
  assert (Hn : "override_obj" ∈ names example_field) by compute_done.
  split; [exact example_fields_ordinary |]. split; [exact Hget |].
  split; [exact Hn |].
  destruct (view_property_writes_through example_digest example_fields
              example_class "price" example_world
              example_field example_attach.1.2 example_attach.2
              example_fields_ordinary eq_refl 7 example_attach.2 wv v
              "override_obj" (PyStr "X") Hget Hn)
    as (w' & Hset & _ & _ & Hread & _).
  exists w'. split; [exact Hset | exact Hread].
Defined.

(** ** The admin mixin: saving *)

Lemma override_attr_names_differ field_name :
  field_name +:+ "_enable_override" ≠ field_name +:+ "_override_obj".
Proof. intros Heq. apply String.app_inj in Heq. discriminate Heq. Qed.

(** [save_model] on an object that has the flag attribute: the test is on
    the truth value of the flag. *)
Lemma save_model_run {Request Form : Type} (save : loc → M unit)
    (field_name : string) (request : Request) (obj : loc) (form : Form)
    (change : bool) (w : world) (v : pyobj) :
  attrs_of w obj !! (field_name +:+ "_enable_override") = Some v →
  save_model save field_name request obj form change w =
  save obj (if truthy v then w
            else set_attr obj (field_name +:+ "_override_obj") PyNone w).
Proof.
  intros Hflag. unfold save_model. rewrite (bind_run _ _ w w v).
  2: { unfold getattr. by rewrite Hflag. }
  destruct (truthy v); cbn [negb].
  - by rewrite (bind_run _ _ w w tt).
  - by rewrite (bind_run _ _ w
                  (set_attr obj (field_name +:+ "_override_obj") PyNone w) tt).
Qed.

(** X10.  On an object without the attribute [<field_name>_enable_override]
    the hook raises [AttributeError] for that name; [obj.save()] is not
    reached and nothing has been written. *)
Theorem save_model_missing_flag_raises {Request Form : Type}
    (save : loc → M unit) (field_name : string) (request : Request)
    (obj : loc) (form : Form) (change : bool) (w : world) :
  attrs_of w obj !! (field_name +:+ "_enable_override") = None →
  save_model save field_name request obj form change w
  = (w, Raise (AttributeError (field_name +:+ "_enable_override"))).
Proof.
  intros Hflag. unfold save_model. apply bind_raise.
  unfold getattr. by rewrite Hflag.
Qed.

Lemma save_model_missing_flag_raises_witness :
  let w := set_attr 3 "price_enable_override" (PyBool false) example_world in
  attrs_of w 3 !! ("cost" +:+ "_enable_override") = None
  ∧ save_model Model_save "cost" tt 3 tt true w
    = (w, Raise (AttributeError "cost_enable_override")).
Proof.
  intros w.
  assert (Hflag : attrs_of w 3 !! ("cost" +:+ "_enable_override") = None)
    by reflexivity.
  split; [exact Hflag |].
  exact (save_model_missing_flag_raises Model_save "cost" tt 3 tt true w Hflag).
Defined.

(** X11.  With a save that writes the object's attributes to its row, and
    for any value [v] of the flag: the hook returns normally; the row
    saved is the object's attributes as the hook leaves them; it holds
    the flag unchanged and every other attribute unchanged except
    [override_obj], which is [None] when [v] is false in Python's sense
    ([False], [None], [0], an empty string or dict) and unchanged
    otherwise.  No other object and no other row is written. *)
Theorem save_model_persists {Request Form : Type} (field_name : string)
    (request : Request) (obj : loc) (form : Form) (change : bool)
    (w : world) (v : pyobj) :
  attrs_of w obj !! (field_name +:+ "_enable_override") = Some v →
  ∃ w' row,
    save_model Model_save field_name request obj form change w = (w', Ok tt)
    ∧ db w' !! obj = Some row
    ∧ row = attrs_of w' obj
    ∧ row !! (field_name +:+ "_override_obj") =
        (if truthy v then attrs_of w obj !! (field_name +:+ "_override_obj")
         else Some PyNone)
    ∧ (∀ attr, attr ≠ field_name +:+ "_override_obj" →
               row !! attr = attrs_of w obj !! attr)
    ∧ (∀ o, o ≠ obj → attrs_of w' o = attrs_of w o ∧ db w' !! o = db w !! o).
Proof.
  intros Hflag. rewrite (save_model_run _ _ _ _ _ _ _ _ Hflag).
  set (ws := if truthy v then w
             else set_attr obj (field_name +:+ "_override_obj") PyNone w).
  exists {| objs := objs ws; classes := classes ws;
            db := <[obj := attrs_of ws obj]> (db ws) |}, (attrs_of ws obj).
  assert (Hdb : db ws = db w) by (unfold ws; by destruct (truthy v)).
  split_and!; try done.
  - cbn [db]. by rewrite lookup_insert_eq.
  - unfold ws. destruct (truthy v); [done |].
    by rewrite attrs_of_set_attr_eq, lookup_insert_eq.
  - intros attr Hne. unfold ws. destruct (truthy v); [done |].
    by rewrite attrs_of_set_attr_eq, lookup_insert_ne.
  - intros o Ho. split.
    + change (attrs_of ws o = attrs_of w o). unfold ws.
      destruct (truthy v); [done |]. by rewrite attrs_of_set_attr_ne.
    + cbn [db]. by rewrite lookup_insert_ne, Hdb.
Qed.

Lemma save_model_persists_witness :
  let w := set_attr 3 "price_override_obj" (PyStr "X")
             (set_attr 3 "price_enable_override" PyNone example_world) in
  attrs_of w 3 !! ("price" +:+ "_enable_override") = Some PyNone
  ∧ ∃ w' row,
      save_model Model_save "price" tt 3 tt true w = (w', Ok tt)
      ∧ db w' !! 3 = Some row
      ∧ row !! ("price" +:+ "_override_obj") = Some PyNone.
Proof.
  intros w.
  assert (Hflag : attrs_of w 3 !! ("price" +:+ "_enable_override") = Some PyNone)
    by reflexivity.
  split; [exact Hflag |].
  destruct (save_model_persists "price" tt 3 tt true w PyNone Hflag)
    as (w' & row & Hrun & Hrow & _ & Hnull & _).
  exists w', row. split_and!; [exact Hrun | exact Hrow | exact Hnull].
Defined.

(** X12.  The two products of the factory fit together: for the override
    pair attached under the name the mixin was generated for, assigning
    [{enable_override: e, override_obj: x}] to an object and saving it
    through the hook persists the flag [e] and, as [override_obj], [x]
    when [e] is [True] and [None] when it is [False]; the composite
    attribute read after the save shows the same pair. *)
Theorem override_pair_set_then_save {Request Form : Type} md5 target cls name0
    w0 f cls' w1 :
  contribute_to_class md5 (OverrideField_fields target) cls name0 w0 = (f, cls', w1) →
  ∀ (obj : loc) (e : bool) (x : pyobj) (w : world) (request : Request)
    (form : Form) (change : bool),
    ∃ wset wsaved row,
      __set__ f obj (PyDict (override_dict e x)) w = (wset, Ok tt)
      ∧ save_model Model_save name0 request obj form change wset = (wsaved, Ok tt)
      ∧ db wsaved !! obj = Some row
      ∧ row !! (name0 +:+ "_enable_override") = Some (PyBool e)
      ∧ row !! (name0 +:+ "_override_obj") = Some (if e then x else PyNone)
      ∧ to_dict (view_on f obj) wsaved
        = (wsaved, Ok (override_dict e (if e then x else PyNone))).
Proof.
  intros Hctc obj e x w request form change.
  destruct (contribute_to_class_ordinary _ _ _ _ _ _ _ _
              (override_fields_ordinary target) Hctc)
    as (Hf & Hord & Hflds & Hname).
  assert (Hnames : names f = ["enable_override"; "override_obj"]).
  { destruct Hf as [-> _]. by rewrite Hflds. }
  destruct (set_dict_spec f obj (override_dict e x) w Hf Hord)
    as (wset & Hset & _ & Hin & _).
  { intros n. rewrite Hnames. intros Hn.
    apply elem_of_cons in Hn as [->|Hn]; [by eexists |].
    apply list_elem_of_singleton in Hn as ->. by eexists. }
  rewrite Hname in Hin.
  assert (He : attrs_of wset obj !! (name0 +:+ "_enable_override") = Some (PyBool e)).
  { rewrite <- (proj1 (override_column_names name0)), Hin; [done |].
    rewrite Hnames. apply elem_of_cons. by left. }
  assert (Ho : attrs_of wset obj !! (name0 +:+ "_override_obj") = Some x).
  { rewrite <- (proj2 (override_column_names name0)), Hin; [done |].
    rewrite Hnames. apply elem_of_cons; right. apply elem_of_cons. by left. }
  pose proof (save_model_run Model_save name0 request obj form change wset _ He)
    as Hsave.
  cbn [truthy] in Hsave.
  set (ws := if e then wset
             else set_attr obj (name0 +:+ "_override_obj") PyNone wset) in *.
  set (wsaved := {| objs := objs ws; classes := classes ws;
                    db := <[obj := attrs_of ws obj]> (db ws) |}).
  assert (He' : attrs_of ws obj !! (name0 +:+ "_enable_override") = Some (PyBool e)).
  { unfold ws. destruct e; [done |].
    rewrite attrs_of_set_attr_eq, lookup_insert_ne; [done |].
    intros Heq. by apply (override_attr_names_differ name0). }
  assert (Ho' : attrs_of ws obj !! (name0 +:+ "_override_obj")
                = Some (if e then x else PyNone)).
  { unfold ws. destruct e; [done |].
    by rewrite attrs_of_set_attr_eq, lookup_insert_eq. }
  destruct (to_dict_spec f obj wsaved Hf Hord) as (d & Hrun & _ & Hd).
  exists wset, wsaved, (attrs_of ws obj). split_and!; try done.
  - cbn [db wsaved]. by rewrite lookup_insert_eq.
  - etrans; [exact Hrun |]. do 2 f_equal. apply map_eq. intros n.
    rewrite Hd, Hnames, Hname.
    change (col_val wsaved obj) with (col_val ws obj). unfold col_val, override_dict.
    destruct (decide (n = "enable_override")) as [->|Hn1].
    { rewrite decide_True by (apply elem_of_cons; by left).
      rewrite (proj1 (override_column_names name0)), He'. by rewrite lookup_insert_eq. }
    destruct (decide (n = "override_obj")) as [->|Hn2].
    { rewrite decide_True by (apply elem_of_cons; right; apply elem_of_cons; by left).
      rewrite (proj2 (override_column_names name0)), Ho'.
      by rewrite lookup_insert_ne, lookup_insert_eq. }
    rewrite decide_False.
    + by rewrite !lookup_insert_ne, lookup_empty.
    + intros Hn. apply elem_of_cons in Hn as [->|Hn]; [done |].
      by apply list_elem_of_singleton in Hn as ->.
Qed.

Lemma override_pair_set_then_save_witness :
  ∃ wset wsaved row,
    __set__ example_field 7 (PyDict (override_dict false (PyStr "X"))) example_attach.2
    = (wset, Ok tt)
    ∧ save_model Model_save "price" tt 7 tt true wset = (wsaved, Ok tt)
    ∧ db wsaved !! 7 = Some row
    ∧ row !! "price_override_obj" = Some PyNone.
Proof.
  destruct (@override_pair_set_then_save unit unit example_digest "CharField"
              example_class "price" example_world
              example_field example_attach.1.2 example_attach.2 eq_refl
              7 false (PyStr "X") example_attach.2 tt tt true)
    as (wset & wsaved & row & Hset & Hsave & Hrow & _ & Hnull & _).
  exists wset, wsaved, row.
  split_and!; [exact Hset | exact Hsave | exact Hrow | exact Hnull].
Defined.

(** ** The admin mixin: rendering *)

Lemma dict_or_empty_insert (m : gmap string ctx_value) k v :
  dict_or_empty (Some (<[k := v]> m)) = <[k := v]> m.
Proof.
  unfold dict_or_empty. rewrite bool_decide_eq_false_2; [done |].
  apply insert_non_empty.
Qed.

(** X13.  Mixins generated for several fields and stacked on one admin
    class hand the host a context in which [override_field_name] is the
    list found in the caller's context (or the empty list) followed by
    their field names in the order of method resolution; every other entry
    of the context is passed on unchanged. *)
Theorem change_view_accumulates {Request ObjectId FormUrl Response : Type}
    (host : Request → ObjectId → FormUrl → option (gmap string ctx_value)
            → M Response)
    (field_names0 : list string) (request : Request) (object_id : ObjectId)
    (form_url : FormUrl) (extra_context : option (gmap string ctx_value))
    (l0 : list pyobj) :
  field_names0 ≠ [] →
  tracked_names extra_context = Some l0 →
  foldr (λ fn sup, change_view sup fn) host field_names0
    request object_id form_url extra_context
  = host request object_id form_url
      (Some (<["override_field_name" := CtxList (l0 ++ (PyStr <$> field_names0))]>
               (dict_or_empty extra_context))).
Proof.
  revert extra_context l0.
  induction field_names0 as [|fn rest IH]; intros ec l0 Hne Htracked; [done |].
  cbn [foldr]. unfold change_view at 1. revert Htracked. unfold tracked_names.
  destruct (dict_or_empty ec !! "override_field_name") as [[l|v]|] eqn:Hk;
    intros [= <-].
  - destruct rest as [|fn' rest]; [done |].
    rewrite (IH _ (l ++ [PyStr fn])); [| done |].
    + by rewrite dict_or_empty_insert, insert_insert_eq, <- app_assoc.
    + unfold tracked_names. by rewrite dict_or_empty_insert, lookup_insert_eq.
  - destruct rest as [|fn' rest]; [done |].
    rewrite (IH _ [PyStr fn]); [| done |].
    + by rewrite dict_or_empty_insert, insert_insert_eq.
    + unfold tracked_names. by rewrite dict_or_empty_insert, lookup_insert_eq.
Qed.

Lemma change_view_accumulates_witness :
  let host := λ (_ _ _ : unit) (c : option (gmap string ctx_value)),
                (ret c : M (option (gmap string ctx_value))) in
  ["price"; "cost"] ≠ []
  ∧ tracked_names None = Some []
  ∧ change_view (change_view host "cost") "price" tt tt tt None example_world
    = (example_world,
       Ok (Some (<["override_field_name" := CtxList [PyStr "price"; PyStr "cost"]]> ∅))).
Proof.
  intros host.
  assert (Hne : ["price"; "cost"] ≠ []) by discriminate.
  assert (Htr : tracked_names None = Some []) by reflexivity.
  split; [exact Hne |]. split; [exact Htr |].
  exact (f_equal (λ c, c example_world)
           (change_view_accumulates host ["price"; "cost"] tt tt tt None [] Hne Htr)).
Defined.

(** X14.  When the caller's context holds under [override_field_name]
    something that is not a list, a non-empty stack of mixins raises
    [TypeError] at the first of them and the host's view is not reached. *)
Theorem change_view_non_list_raises {Request ObjectId FormUrl Response : Type}
    (host : Request → ObjectId → FormUrl → option (gmap string ctx_value)
            → M Response)
    (field_names0 : list string) (request : Request) (object_id : ObjectId)
    (form_url : FormUrl) (extra_context : option (gmap string ctx_value))
    (w : world) :
  field_names0 ≠ [] →
  tracked_names extra_context = None →
  foldr (λ fn sup, change_view sup fn) host field_names0
    request object_id form_url extra_context w
  = (w, Raise TypeError).
Proof.
  intros Hne Htracked. destruct field_names0 as [|fn rest]; [done |].
  cbn [foldr]. unfold change_view. revert Htracked. unfold tracked_names.
  by destruct (dict_or_empty extra_context !! "override_field_name") as [[l|v]|].
Qed.

Lemma change_view_non_list_raises_witness :
  let host := λ (_ _ _ : unit) (c : option (gmap string ctx_value)),
                (ret c : M (option (gmap string ctx_value))) in
  let ec := Some (<["override_field_name" := CtxObj (PyStr "tmp")]> ∅) in
  ["price"] ≠ [] ∧ tracked_names ec = None
  ∧ change_view host "price" tt tt tt ec example_world
    = (example_world, Raise TypeError).
Proof.
  intros host ec.
  assert (Hne : ["price"] ≠ []) by discriminate.
  assert (Htr : tracked_names ec = None) by reflexivity.
  split; [exact Hne |]. split; [exact Htr |].
  exact (change_view_non_list_raises host ["price"] tt tt tt ec example_world Hne Htr).
Defined.

(** ** The admin mixin: the form *)

Lemma od_get_after_move {FormField : Type} (od : list (string * FormField))
    (e o : string) (ve : FormField) :
  e ≠ o →
  od_get (filter (λ p, p.1 ≠ e) od ++ [(e, ve)]) o = od_get od o.
Proof.
  intros Hne. unfold od_get. rewrite filter_app.
  rewrite (filter_cons_False _ (e, ve)) by (cbn; congruence).
  rewrite filter_nil, app_nil_r.
  rewrite list_filter_filter_l; [done |]. intros p Hp. cbn in *. congruence.
Qed.

Lemma filter_after_move {FormField : Type} (od : list (string * FormField))
    (e o : string) (ve : FormField) :
  e ≠ o →
  filter (λ p, p.1 ≠ o) (filter (λ p, p.1 ≠ e) od ++ [(e, ve)])
  = filter (λ p, p.1 ≠ e ∧ p.1 ≠ o) od ++ [(e, ve)].
Proof.
  intros Hne. rewrite filter_app.
  rewrite (filter_cons_True _ (e, ve)) by (cbn; congruence).
  rewrite filter_nil, list_filter_filter. f_equal.
  apply list_filter_iff. intros p. tauto.
Qed.

(** [get_form] when both controls are in the form built by [super]. *)
Lemma get_form_run {Request Kw FormField : Type}
    (super_get_form : Request → option loc → Kw → M (list (string * FormField)))
    (field_name : string) (request : Request) (obj : option loc) (kwargs0 : Kw)
    (w w' : world) (od : list (string * FormField)) (ve vo : FormField) :
  super_get_form request obj kwargs0 w = (w', Ok od) →
  od_get od (field_name +:+ "_enable_override") = Some ve →
  od_get od (field_name +:+ "_override_obj") = Some vo →
  get_form super_get_form field_name request obj kwargs0 w
  = (w', Ok (filter (λ p, p.1 ≠ field_name +:+ "_enable_override"
                          ∧ p.1 ≠ field_name +:+ "_override_obj") od
             ++ [(field_name +:+ "_enable_override", ve);
                 (field_name +:+ "_override_obj", vo)])).
Proof.
  intros Hsuper He Ho. unfold get_form.
  rewrite (bind_run _ _ _ _ _ Hsuper).
  unfold move_to_end at 1. rewrite He. unfold bind at 1, ret at 1.
  unfold move_to_end at 1.
  rewrite od_get_after_move, Ho by apply override_attr_names_differ.
  unfold bind, ret.
  rewrite filter_after_move by apply override_attr_names_differ.
  by rewrite <- app_assoc.
Qed.

Lemma filter_none {A : Type} (P : A → Prop) `{∀ x, Decision (P x)} (l : list A) :
  (∀ x, x ∈ l → ¬ P x) → filter P l = [].
Proof.
  induction l as [|x l IH]; intros Hl; [done |].
  rewrite filter_cons_False by (apply Hl, elem_of_cons; by left).
  apply IH. intros y Hy. apply Hl, elem_of_cons. by right.
Qed.

Lemma filter_key_singleton {FormField : Type} (od : list (string * FormField))
    (k : string) (v : FormField) :
  NoDup od.*1 → od_get od k = Some v →
  filter (λ p, p.1 = k) od = [(k, v)].
Proof.
  unfold od_get. induction od as [|[k' v'] od IH]; [done |].
  rewrite fmap_cons, NoDup_cons. cbn [fst]. intros [Hk' Hnd].
  destruct (decide (k' = k)) as [->|Hne].
  - rewrite (filter_cons_True _ (k, v')) by done. cbn. intros [= ->]. f_equal.
    apply filter_none. intros [k2 v2] Hin. cbn. intros ->.
    apply Hk', list_elem_of_fmap. by exists (k, v2).
  - rewrite (filter_cons_False _ (k', v')) by done. by apply IH.
Qed.

(** X15.  When the form built by the host has both controls of the pair,
    [get_form] returns it with the other controls first, in the order they
    were in, then [<field_name>_enable_override], then
    [<field_name>_override_obj], each with the control it had; no control
    is lost or added. *)
Theorem get_form_moves_pair_last {Request Kw FormField : Type}
    (super_get_form : Request → option loc → Kw → M (list (string * FormField)))
    (field_name : string) (request : Request) (obj : option loc) (kwargs0 : Kw)
    (w w' : world) (od : list (string * FormField)) (ve vo : FormField) :
  NoDup od.*1 →
  super_get_form request obj kwargs0 w = (w', Ok od) →
  od_get od (field_name +:+ "_enable_override") = Some ve →
  od_get od (field_name +:+ "_override_obj") = Some vo →
  ∃ od',
    get_form super_get_form field_name request obj kwargs0 w = (w', Ok od')
    ∧ od' = filter (λ p, p.1 ≠ field_name +:+ "_enable_override"
                         ∧ p.1 ≠ field_name +:+ "_override_obj") od
            ++ [(field_name +:+ "_enable_override", ve);
                (field_name +:+ "_override_obj", vo)]
    ∧ od' ≡ₚ od
    ∧ NoDup od'.*1.
Proof.
  intros Hnd Hsuper He Ho. eexists. split; [by eapply get_form_run |].
  split; [done |].
  set (e := field_name +:+ "_enable_override") in *.
  set (o := field_name +:+ "_override_obj") in *.
  assert (Hne : e ≠ o) by apply override_attr_names_differ.
  assert (H1 : od ≡ₚ (e, ve) :: filter (λ p, p.1 ≠ e) od).
  { etrans; [symmetry; apply (filter_app_complement (λ p, p.1 = e)) |].
    by rewrite (filter_key_singleton od e ve Hnd He). }
  assert (H2 : filter (λ p, p.1 ≠ e) od
               ≡ₚ (o, vo) :: filter (λ p, p.1 ≠ e ∧ p.1 ≠ o) od).
  { etrans; [symmetry; apply (filter_app_complement (λ p, p.1 = o)) |].
    rewrite (list_filter_filter_l (λ p, p.1 = o)) by (intros p; cbn; congruence).
    rewrite (filter_key_singleton od o vo Hnd Ho), list_filter_filter.
    cbn. apply perm_skip.
    erewrite list_filter_iff; [done |]. intros p. cbn. tauto. }
  assert (Hperm : filter (λ p, p.1 ≠ e ∧ p.1 ≠ o) od ++ [(e, ve); (o, vo)] ≡ₚ od).
  { etrans; [| symmetry; exact H1]. rewrite H2, Permutation_app_comm. done. }
  split; [exact Hperm |]. by rewrite Hperm.
Qed.

Lemma get_form_moves_pair_last_witness :
  let od := [("price_enable_override", 1); ("name", 2);
             ("price_override_obj", 3); ("title", 4)] in
  let host := λ (_ : unit) (_ : option loc) (_ : unit),
                (ret od : M (list (string * nat))) in
  NoDup od.*1
  ∧ get_form host "price" tt None tt example_world
    = (example_world,
       Ok [("name", 2); ("title", 4);
           ("price_enable_override", 1); ("price_override_obj", 3)]).
Proof.
  intros od host.
  assert (Hnd : NoDup od.*1) by compute_done.
  split; [exact Hnd |].
  destruct (get_form_moves_pair_last host "price" tt None tt
              example_world example_world od 1 3 Hnd eq_refl eq_refl eq_refl)
    as (od' & Hrun & -> & _).
  exact Hrun.
Defined.

(** X16.  When the form built by the host lacks one of the two controls
    (the admin leaves the column out of its fields), [get_form] raises
    the [KeyError] of [move_to_end] for a control that is missing, instead
    of returning the form. *)
Theorem get_form_missing_control_raises {Request Kw FormField : Type}
    (super_get_form : Request → option loc → Kw → M (list (string * FormField)))
    (field_name : string) (request : Request) (obj : option loc) (kwargs0 : Kw)
    (w w' : world) (od : list (string * FormField)) :
  super_get_form request obj kwargs0 w = (w', Ok od) →
  od_get od (field_name +:+ "_enable_override") = None
  ∨ od_get od (field_name +:+ "_override_obj") = None →
  ∃ k, get_form super_get_form field_name request obj kwargs0 w
       = (w', Raise (KeyError k))
       ∧ (k = field_name +:+ "_enable_override"
          ∨ k = field_name +:+ "_override_obj")
       ∧ od_get od k = None.
Proof.
  intros Hsuper Hmiss. unfold get_form. rewrite (bind_run _ _ _ _ _ Hsuper).
  destruct (od_get od (field_name +:+ "_enable_override")) as [ve|] eqn:He.
  - destruct Hmiss as [|Ho]; [done |].
    exists (field_name +:+ "_override_obj"). split_and!; [| by right | done].
    unfold move_to_end at 1. rewrite He. unfold bind at 1, ret at 1.
    apply bind_raise. unfold move_to_end.
    by rewrite od_get_after_move, Ho by apply override_attr_names_differ.
  - exists (field_name +:+ "_enable_override"). split_and!; [| by left | done].
    apply bind_raise. unfold move_to_end. by rewrite He.
Qed.

Lemma get_form_missing_control_raises_witness :
  let od := [("price_enable_override", 1); ("name", 2)] in
  let host := λ (_ : unit) (_ : option loc) (_ : unit),
                (ret od : M (list (string * nat))) in
  od_get od ("price" +:+ "_override_obj") = None
  ∧ ∃ k, get_form host "price" tt None tt example_world
         = (example_world, Raise (KeyError k)).
Proof.
  intros od host.
  assert (Ho : od_get od ("price" +:+ "_override_obj") = None) by reflexivity.
  split; [exact Ho |].
  destruct (get_form_missing_control_raises host "price" tt None tt
              example_world example_world od eq_refl (or_intror Ho))
    as (k & Hrun & _).
  by exists k.
Defined.

Lemma od_get_filter_app {FormField : Type} (P : string * FormField → Prop)
    `{∀ p, Decision (P p)} (od tl : list (string * FormField)) (k : string) :
  (∀ p, p.1 = k → P p) →
  (∀ p, p ∈ tl → p.1 ≠ k) →
  od_get (filter P od ++ tl) k = od_get od k.
Proof.
  intros HP Htl. unfold od_get. rewrite filter_app.
  rewrite (filter_none _ tl) by (intros p Hp; by apply Htl).
  rewrite app_nil_r. by rewrite list_filter_filter_l.
Qed.

(** X17.  With the mixins of two fields stacked on one admin class, the
    form comes back with the other controls first in their order, then
    the pair of the mixin later in the method resolution order, then the
    pair of the earlier one: the mixin listed first puts its pair last. *)
Theorem get_form_stacked {Request Kw FormField : Type}
    (host : Request → option loc → Kw → M (list (string * FormField)))
    (first second : string) (request : Request) (obj : option loc) (kwargs0 : Kw)
    (w w' : world) (od : list (string * FormField)) (ve1 vo1 ve2 vo2 : FormField) :
  let e1 := first +:+ "_enable_override" in
  let o1 := first +:+ "_override_obj" in
  let e2 := second +:+ "_enable_override" in
  let o2 := second +:+ "_override_obj" in
  e1 ≠ e2 → e1 ≠ o2 → o1 ≠ e2 → o1 ≠ o2 →
  host request obj kwargs0 w = (w', Ok od) →
  od_get od e1 = Some ve1 → od_get od o1 = Some vo1 →
  od_get od e2 = Some ve2 → od_get od o2 = Some vo2 →
  get_form (get_form host second) first request obj kwargs0 w
  = (w', Ok (filter (λ p, p.1 ∉ [e1; o1; e2; o2]) od
             ++ [(e2, ve2); (o2, vo2); (e1, ve1); (o1, vo1)])).
Proof.
  intros e1 o1 e2 o2 H12 H1o2 Ho1 Ho12 Hhost He1 Ho1' He2 Ho2.
  pose proof (get_form_run host second request obj kwargs0 w w' od ve2 vo2
                Hhost He2 Ho2) as Hinner.
  fold e2 o2 in Hinner.
  assert (Htl : ∀ k, k ≠ e2 → k ≠ o2 →
            ∀ p, p ∈ [(e2, ve2); (o2, vo2)] → p.1 ≠ k).
  { intros k Hk1 Hk2 p Hp.
    apply elem_of_cons in Hp as [->|Hp]; [cbn; congruence |].
    apply list_elem_of_singleton in Hp as ->. cbn. congruence. }
  rewrite (get_form_run (get_form host second) first request obj kwargs0 w w'
             _ ve1 vo1 Hinner).
  - fold e1 o1. rewrite filter_app, list_filter_filter.
    rewrite (filter_cons_True _ (e2, ve2)) by (cbn; split; congruence).
    rewrite (filter_cons_True _ (o2, vo2)) by (cbn; split; congruence).
    rewrite filter_nil, <- app_assoc. cbn [app]. do 3 f_equal.
    apply list_filter_iff. intros p.
    rewrite !not_elem_of_cons. split.
    + intros [[? ?] [? ?]]. split_and!; try done. apply not_elem_of_nil.
    + intros (? & ? & ? & ? & _). done.
  - fold e1. rewrite od_get_filter_app; [done | |].
    + intros p ->. split; congruence.
    + by apply Htl.
  - fold o1. rewrite od_get_filter_app; [done | |].
    + intros p ->. split; congruence.
    + by apply Htl.
Qed.

Lemma get_form_stacked_witness :
  let od := [("price_enable_override", 1); ("name", 2); ("cost_override_obj", 3);
             ("price_override_obj", 4); ("cost_enable_override", 5)] in
  let host := λ (_ : unit) (_ : option loc) (_ : unit),
                (ret od : M (list (string * nat))) in
  get_form (get_form host "cost") "price" tt None tt example_world
  = (example_world,
     Ok [("name", 2); ("cost_enable_override", 5); ("cost_override_obj", 3);
         ("price_enable_override", 1); ("price_override_obj", 4)]).
Proof.
  intros od host.
  exact (get_form_stacked host "price" "cost" tt None tt
           example_world example_world od 1 4 5 3
           ltac:(discriminate) ltac:(discriminate) ltac:(discriminate)
           ltac:(discriminate) eq_refl eq_refl eq_refl eq_refl eq_refl).
Defined.
